(** * Texture generator: annotation canvas, generation pipeline, coordinator

    A shallow embedding of the TypeScript sources
      - [src/types.ts]                     (Annotation, GenerationState)
      - [src/services/gemini.ts]           (detectUVParts, generateTexture, editTexture)
      - [src/components/CanvasEditor.tsx]  (pointer handling, pending annotation)
      - the [App] component                (handleFileUpload, handleGenerate, handleEdit)

    Conventions of the embedding:
      - a JavaScript string is the list of its UTF-16 code units;
      - a JavaScript number is an IEEE 754 binary64 value, [spec_float] with
        precision 53 and maximal exponent 1024;
      - React state is passed explicitly: a handler maps the state it was
        called on to the state after its synchronous part, together with the
        external request it issued (if any); the code after an [await] is a
        second function, applied when the promise settles;
      - the external service is not modelled: what one call of it does (it
        rejects with a message, or resolves with a response) is an input;
        so are [JSON.parse] and the readings of [Date.now()];
      - [try]/[catch] is an error sum, [Returned] or [Threw];
      - an operation run to completion is the handler followed at once by
        its settlement; overlapping calls are a step relation on the state
        together with the list of calls in flight;
      - [App] takes a file read as ending at once and [Gemini] a rejected
        call as rejected with an [Error]; [Timeline] and [GeminiCall]
        have the read as a step of its own, the lines of
        [generateTexture] before its [try], and rejections with any
        value. *)

From Stdlib Require Import List Bool ZArith NArith Lia String Ascii.
From Stdlib Require Import Floats.SpecFloat.
From Stdlib Require Decimal DecimalN Finite.
Import ListNotations.

(* ================================================================== *)
(** ** JavaScript strings                                              *)
(* ================================================================== *)

Module Js.

(** A string is its sequence of UTF-16 code units. *)
Definition jsstring := list N.

(** An ASCII literal of the source, as code units. *)
Fixpoint lit (s : string) : jsstring :=
  match s with
  | EmptyString => []
  | String c r => N_of_ascii c :: lit r
  end.

Fixpoint str_eqb (a b : jsstring) : bool :=
  match a, b with
  | [], [] => true
  | c :: a', d :: b' => N.eqb c d && str_eqb a' b'
  | _, _ => false
  end.

(** ECMAScript WhiteSpace and LineTerminator code points, the characters
    [String.prototype.trim] strips. All of them are in the basic plane. *)
Definition is_space (c : N) : bool :=
  match c with
  | 9 | 10 | 11 | 12 | 13 | 32 | 160 | 5760
  | 8192 | 8193 | 8194 | 8195 | 8196 | 8197 | 8198 | 8199 | 8200 | 8201 | 8202
  | 8232 | 8233 | 8239 | 8287 | 12288 | 65279 => true
  | _ => false
  end%N.

Fixpoint trimStart (s : jsstring) : jsstring :=
  match s with
  | c :: r => if is_space c then trimStart r else s
  | [] => []
  end.

Definition trimEnd (s : jsstring) : jsstring := List.rev (trimStart (List.rev s)).

Definition trim (s : jsstring) : jsstring := trimEnd (trimStart s).

(** Truthiness of a string: every string but the empty one. *)
Definition str_truthy (s : jsstring) : bool :=
  match s with [] => false | _ => true end.

(** Truthiness of [string | null]. *)
Definition opt_truthy (o : option jsstring) : bool :=
  match o with Some s => str_truthy s | None => false end.

(** [a || b] on strings. *)
Definition str_or (a b : jsstring) : jsstring :=
  if str_truthy a then a else b.

(** [s.split(',')[1]]: the text between the first and the second comma;
    [undefined] (here [None]) when [s] has no comma. *)
Fixpoint upto_comma (s : jsstring) : jsstring :=
  match s with
  | [] => []
  | c :: r => if N.eqb c 44 then [] else c :: upto_comma r
  end.

Fixpoint split_comma_1 (s : jsstring) : option jsstring :=
  match s with
  | [] => None
  | c :: r => if N.eqb c 44 then Some (upto_comma r) else split_comma_1 r
  end.

(** Decimal rendering of a non-negative integer ([String(n)] for an array
    index) and of an integer clock reading ([Date.now()]). *)
Fixpoint digits (u : Decimal.uint) : jsstring :=
  match u with
  | Decimal.Nil => []
  | Decimal.D0 r => 48%N :: digits r
  | Decimal.D1 r => 49%N :: digits r
  | Decimal.D2 r => 50%N :: digits r
  | Decimal.D3 r => 51%N :: digits r
  | Decimal.D4 r => 52%N :: digits r
  | Decimal.D5 r => 53%N :: digits r
  | Decimal.D6 r => 54%N :: digits r
  | Decimal.D7 r => 55%N :: digits r
  | Decimal.D8 r => 56%N :: digits r
  | Decimal.D9 r => 57%N :: digits r
  end.

Definition N_toString (n : N) : jsstring := digits (N.to_uint n).

Definition nat_toString (n : nat) : jsstring := N_toString (N.of_nat n).

Definition int_toString (z : Z) : jsstring :=
  match z with
  | Zneg p => 45%N :: N_toString (Npos p)
  | _ => N_toString (Z.to_N z)
  end.

(** *** Numbers *)

Definition number := spec_float.

Definition prec : Z := 53.
Definition emax : Z := 1024.

Definition num_sub : number -> number -> number := SFsub prec emax.
Definition num_div : number -> number -> number := SFdiv prec emax.
Definition num_mul : number -> number -> number := SFmul prec emax.

(** The literals [0] and [100]. *)
Definition num_0 : number := S754_zero false.
Definition num_100 : number := S754_finite false 7036874417766400 (-46).

Definition is_nan (a : number) : bool :=
  match a with S754_nan => true | _ => false end.

Definition is_finite (a : number) : bool :=
  match a with S754_zero _ | S754_finite _ _ _ => true | _ => false end.

(** [Math.min(a, b)] and [Math.max(a, b)]: NaN if either argument is NaN;
    [-0] counts as smaller than [+0]. *)
Definition Math_min (a b : number) : number :=
  match a, b with
  | S754_nan, _ | _, S754_nan => S754_nan
  | S754_zero sa, S754_zero sb => S754_zero (sa || sb)
  | _, _ => if SFltb b a then b else a
  end.

Definition Math_max (a b : number) : number :=
  match a, b with
  | S754_nan, _ | _, S754_nan => S754_nan
  | S754_zero sa, S754_zero sb => S754_zero (sa && sb)
  | _, _ => if SFltb a b then b else a
  end.


End Js.

Import Js.

(* ================================================================== *)
(** ** Values and records of [types.ts]                                *)
(* ================================================================== *)

(** Values as they exist at run time. [detectUVParts] copies fields of
    parsed JSON ([item: any]) into annotations unchecked, so a field of an
    annotation holds whatever the response held. *)
#[warnings="-register-all"] Inductive JsValue : Type :=
| VUndefined
| VNull
| VBool (b : bool)
| VNum (n : number)
| VStr (s : jsstring)
| VArr (items : list JsValue)
| VObj (props : list (jsstring * JsValue)).

(** [interface Annotation { id: string; x: number; y: number; label: string }];
    the declared types of [x], [y] and [label] are erased at run time. *)
Module Annotation.
Record t : Type := mk { id : jsstring; x : JsValue; y : JsValue; label : JsValue }.
End Annotation.

(** [interface GenerationState]. [None] is [null]. *)
Record GenerationState : Type := mkGen
  { isLoading : bool; resultImage : option jsstring; error : option jsstring }.

(** The outcome of a [try] block or of a promise. A thrown [Error] is kept
    as its [message]. *)
Inductive Result (A : Type) : Type :=
| Returned (a : A)
| Threw (message : jsstring).
Arguments Returned {A} a.
Arguments Threw {A} message.

(* ================================================================== *)
(** ** [services/gemini.ts]                                            *)
(* ================================================================== *)

Module Gemini.

(** What [ai.models.generateContent] gives back. Optional links of the
    response are [option]s, as [?.] treats them. *)
Record InlineData : Type := { data : option jsstring }.
Record Part : Type := { inlineData : option InlineData }.
Record Content : Type := { parts : option (list Part) }.
Record Candidate : Type := { content : option Content }.
Record Response : Type :=
  { text : option jsstring; candidates : option (list Candidate) }.

(** One call of the external service: the promise rejects with an error
    carrying [message] (an [Error], as the client library raises them),
    or resolves with a response. Rejections with other values are in
    [GeminiCall]. *)
Inductive Outcome : Type :=
| Rejects (message : jsstring)
| Resolves (response : Response).

(** [response.candidates?.[0]?.content?.parts || []] *)
Definition response_parts (r : Response) : list Part :=
  match candidates r with
  | Some (c :: _) =>
      match content c with
      | Some ct => match parts ct with Some ps => ps | None => [] end
      | None => []
      end
  | _ => []
  end.

(** The [for ... of] loop: the first part with
    [part.inlineData && part.inlineData.data]. *)
Fixpoint first_inline (ps : list Part) : option jsstring :=
  match ps with
  | [] => None
  | p :: rest =>
      match inlineData p with
      | Some {| data := Some d |} =>
          if str_truthy d then Some d else first_inline rest
      | _ => first_inline rest
      end
  end.

Definition data_uri (d : jsstring) : jsstring :=
  lit "data:image/png;base64," ++ d.

(** The [try] block shared by [generateTexture] and [editTexture], up to
    the message of the final [throw new Error(...)]. *)
Definition image_try (none_msg : jsstring) (o : Outcome) : Result jsstring :=
  match o with
  | Rejects m => Threw m
  | Resolves r =>
      match first_inline (response_parts r) with
      | Some d => Returned (data_uri d)
      | None => Threw none_msg
      end
  end.

(** [catch (error) { throw new Error(error.message || fallback) }] *)
Definition rethrow (fallback : jsstring) (r : Result jsstring) : Result jsstring :=
  match r with
  | Returned v => Returned v
  | Threw m => Threw (str_or m fallback)
  end.

(** [generateTexture] from its [try] on: the instruction has been
    assembled from the style text and the annotations and travels to the
    service, whose answer is [o]. The lines before the [try], which
    throw on a label that is not a string, are [GeminiPrompt.describe];
    the whole function is [GeminiCall.generateTexture]. *)
Definition generateTexture (o : Outcome) : Result jsstring :=
  rethrow (lit "Failed to generate texture")
          (image_try (lit "No image data received from Gemini.") o).

(** [editTexture] *)
Definition editTexture (o : Outcome) : Result jsstring :=
  rethrow (lit "Failed to edit texture")
          (image_try (lit "No edited image data received.") o).

Section Detect.

(** [JSON.parse] of the run time: a value, or a [SyntaxError]. *)
Variable JSON_parse : jsstring -> Result JsValue.

(** [Date.now()] as read inside the callback of [map] at a given index
    (milliseconds, an integer). *)
Variable Date_now : nat -> Z.

(** The message of a [TypeError] is the engine's; the [catch] drops it. *)
Definition type_error : jsstring := lit "TypeError".

Fixpoint own_prop (key : jsstring) (props : list (jsstring * JsValue)) : JsValue :=
  match props with
  | [] => VUndefined
  | (k, v) :: rest => if str_eqb k key then v else own_prop key rest
  end.

(** [item.label], [item.x], [item.y]: a [TypeError] on [null], the
    property of an object, and [undefined] on every other JSON value
    (none of them has a property of these names). *)
Definition field (item : JsValue) (key : jsstring) : Result JsValue :=
  match item with
  | VUndefined | VNull => Threw type_error
  | VObj props => Returned (own_prop key props)
  | _ => Returned VUndefined
  end.

(** [`auto-${Date.now()}-${index}`] *)
Definition auto_id (now : Z) (index : nat) : jsstring :=
  lit "auto-" ++ int_toString now ++ lit "-" ++ nat_toString index.

(** The callback of [parsed.map]. *)
Definition to_annotation (item : JsValue) (index : nat) : Result Annotation.t :=
  match field item (lit "label") with
  | Threw m => Threw m
  | Returned l =>
      match field item (lit "x") with
      | Threw m => Threw m
      | Returned vx =>
          match field item (lit "y") with
          | Threw m => Threw m
          | Returned vy =>
              Returned (Annotation.mk (auto_id (Date_now index) index) vx vy l)
          end
      end
  end.

(** [Array.prototype.map] with the index, from [index] on; an exception
    in the callback ends it. *)
Fixpoint map_from (index : nat) (items : list JsValue) : Result (list Annotation.t) :=
  match items with
  | [] => Returned []
  | item :: rest =>
      match to_annotation item index with
      | Threw m => Threw m
      | Returned a =>
          match map_from (S index) rest with
          | Threw m => Threw m
          | Returned l => Returned (a :: l)
          end
      end
  end.

(** The [try] block of [detectUVParts]. Only an array has a callable
    [map]; on anything else [parsed.map(...)] is a [TypeError]. *)
Definition detect_try (o : Outcome) : Result (list Annotation.t) :=
  match o with
  | Rejects m => Threw m
  | Resolves r =>
      match text r with
      | Some t =>
          if str_truthy t then
            match JSON_parse t with
            | Threw m => Threw m
            | Returned (VArr items) => map_from 0 items
            | Returned _ => Threw type_error
            end
          else Returned []
      | None => Returned []
      end
  end.

(** [detectUVParts]: [catch (error) { ...; return []; }]. The image and
    the prompt only travel to the service, whose answer is [o]. *)
Definition detectUVParts (o : Outcome) : Result (list Annotation.t) :=
  match detect_try o with
  | Returned l => Returned l
  | Threw _ => Returned []
  end.

End Detect.

End Gemini.

(* ================================================================== *)
(** ** The [App] component                                             *)
(* ================================================================== *)

Module App.

(** The six [useState] cells of [App]. *)
Record State : Type := mkState
  { uvImage : option jsstring;
    annotations : list Annotation.t;
    stylePrompt : jsstring;
    editPrompt : jsstring;
    isDetecting : bool;
    genState : GenerationState }.

Definition initial : State :=
  mkState None [] [] [] false (mkGen false None None).

(** A call of the external service issued by a handler, with the
    arguments the handler passes to the service function. *)
Inductive Request : Type :=
| DetectRequest (rawBase64 : option jsstring)
| GenerateRequest (base64Data : option jsstring) (style : jsstring)
                  (anns : list Annotation.t)
| EditRequest (base64Data : option jsstring) (instruction : jsstring).

Definition setUvImage (v : option jsstring) (st : State) : State :=
  mkState v (annotations st) (stylePrompt st) (editPrompt st) (isDetecting st) (genState st).
Definition setAnnotations (v : list Annotation.t) (st : State) : State :=
  mkState (uvImage st) v (stylePrompt st) (editPrompt st) (isDetecting st) (genState st).
Definition setStylePrompt (v : jsstring) (st : State) : State :=
  mkState (uvImage st) (annotations st) v (editPrompt st) (isDetecting st) (genState st).
Definition setEditPrompt (v : jsstring) (st : State) : State :=
  mkState (uvImage st) (annotations st) (stylePrompt st) v (isDetecting st) (genState st).
Definition setIsDetecting (v : bool) (st : State) : State :=
  mkState (uvImage st) (annotations st) (stylePrompt st) (editPrompt st) v (genState st).
(** [setGenState(prev => f prev)]; [setGenState(v)] is [setGenState (fun _ => v)]. *)
Definition setGenState (f : GenerationState -> GenerationState) (st : State) : State :=
  mkState (uvImage st) (annotations st) (stylePrompt st) (editPrompt st) (isDetecting st)
          (f (genState st)).

Definition msg_style_required : jsstring :=
  [1055; 1086; 1078; 1072; 1083; 1091; 1081; 1089; 1090; 1072; 44; 32; 1086;
   1087; 1080; 1096; 1080; 1090; 1077; 32; 1089; 1090; 1080; 1083; 1100; 32;
   1090; 1077; 1082; 1089; 1090; 1091; 1088; 1099; 46]%N.
Definition msg_generate_failed : jsstring :=
  [1054; 1096; 1080; 1073; 1082; 1072; 32; 1075; 1077; 1085; 1077; 1088; 1072;
   1094; 1080; 1080]%N.
Definition msg_edit_failed : jsstring :=
  [1054; 1096; 1080; 1073; 1082; 1072; 32; 1088; 1077; 1076; 1072; 1082; 1090;
   1080; 1088; 1086; 1074; 1072; 1085; 1080; 1103]%N.

(** *** [handleFileUpload] *)

(** [reader.onload], up to the [await]: [base64] is the data URL the
    reader produced. *)
Definition handleFileUpload_onload (base64 : jsstring) (st : State)
  : State * option Request :=
  let st := setUvImage (Some base64) st in
  let st := setAnnotations [] st in
  let st := setGenState (fun prev => mkGen (isLoading prev) None None) st in
  let st := setIsDetecting true st in
  (st, Some (DetectRequest (split_comma_1 base64))).

(** [handleFileUpload] for a read that ends at once: the change event
    and [reader.onload] taken as one step. Nothing happens without a
    file. [Timeline.handleFileUpload] is the handler alone, with the
    read as a step of its own. *)
Definition handleFileUpload (file : option jsstring) (st : State)
  : State * option Request :=
  match file with
  | Some base64 => handleFileUpload_onload base64 st
  | None => (st, None)
  end.

(** After [await detectUVParts(rawBase64)]: the rest of the [try], the
    [catch] and the [finally]. *)
Definition handleFileUpload_settled (r : Result (list Annotation.t)) (st : State)
  : State :=
  let st :=
    match r with
    | Returned ((_ :: _) as detectedParts) => setAnnotations detectedParts st
    | Returned [] => st
    | Threw _ => st
    end in
  setIsDetecting false st.

(** *** [handleGenerate] *)

Definition handleGenerate (st : State) : State * option Request :=
  match uvImage st with
  | Some uv =>
      if negb (str_truthy uv) then (st, None)
      else if negb (str_truthy (trim (stylePrompt st))) then
        (setGenState (fun prev => mkGen (isLoading prev) (resultImage prev)
                                        (Some msg_style_required)) st, None)
      else
        (setGenState (fun _ => mkGen true None None) st,
         Some (GenerateRequest (split_comma_1 uv) (stylePrompt st) (annotations st)))
  | None => (st, None)
  end.

Definition handleGenerate_settled (r : Result jsstring) (st : State) : State :=
  match r with
  | Returned result => setGenState (fun _ => mkGen false (Some result) None) st
  | Threw message =>
      setGenState (fun _ => mkGen false None (Some (str_or message msg_generate_failed))) st
  end.

(** *** [handleEdit] *)

Definition handleEdit (st : State) : State * option Request :=
  match resultImage (genState st) with
  | Some img =>
      if negb (str_truthy img) || negb (str_truthy (trim (editPrompt st))) then (st, None)
      else
        (setGenState (fun prev => mkGen true (resultImage prev) None) st,
         Some (EditRequest (split_comma_1 img) (editPrompt st)))
  | None => (st, None)
  end.

Definition handleEdit_settled (r : Result jsstring) (st : State) : State :=
  match r with
  | Returned result =>
      setEditPrompt [] (setGenState (fun _ => mkGen false (Some result) None) st)
  | Threw message =>
      setGenState (fun prev => mkGen false (resultImage prev)
                                     (Some (str_or message msg_edit_failed))) st
  end.

(** *** An operation run to completion

    The handler, then (if it issued a request) the settlement of that
    request with the service's outcome [o], nothing else in between. *)

Definition generate (o : Gemini.Outcome) (st : State) : State :=
  match handleGenerate st with
  | (st', Some _) => handleGenerate_settled (Gemini.generateTexture o) st'
  | (st', None) => st'
  end.

Definition edit (o : Gemini.Outcome) (st : State) : State :=
  match handleEdit st with
  | (st', Some _) => handleEdit_settled (Gemini.editTexture o) st'
  | (st', None) => st'
  end.

Section Upload.
Variable JSON_parse : jsstring -> Result JsValue.

Definition upload (file : option jsstring) (Date_now : nat -> Z)
           (o : Gemini.Outcome) (st : State) : State :=
  match handleFileUpload file st with
  | (st', Some _) =>
      handleFileUpload_settled (Gemini.detectUVParts JSON_parse Date_now o) st'
  | (st', None) => st'
  end.
End Upload.

(** *** The controls that call the handlers (the JSX of [App])

    A [disabled] control delivers no event; a control that is not
    rendered cannot be used. A chosen file is taken as read at once
    (see [handleFileUpload]). *)

Inductive Event : Type :=
| FileChosen (file : option jsstring)  (* change on the file input *)
| GenerateClicked                      (* the action button *)
| EditClicked                          (* the apply button of the edit section *)
| EditEnterPressed                     (* Enter in the edit text field *)
| StyleTyped (s : jsstring)
| EditTyped (s : jsstring).

(** [disabled={isDetecting}] on the file input. *)
Definition file_input_disabled (st : State) : bool := isDetecting st.

(** [disabled={!uvImage || genState.isLoading || isDetecting}] *)
Definition generate_button_disabled (st : State) : bool :=
  negb (opt_truthy (uvImage st)) || isLoading (genState st) || isDetecting st.

(** [{genState.resultImage && ( ... edit section ... )}] *)
Definition edit_section_rendered (st : State) : bool :=
  opt_truthy (resultImage (genState st)).

(** [disabled={!editPrompt.trim() || genState.isLoading}] *)
Definition edit_button_disabled (st : State) : bool :=
  negb (str_truthy (trim (editPrompt st))) || isLoading (genState st).

Definition dispatch (ev : Event) (st : State) : State * option Request :=
  match ev with
  | FileChosen file =>
      if file_input_disabled st then (st, None) else handleFileUpload file st
  | GenerateClicked =>
      if generate_button_disabled st then (st, None) else handleGenerate st
  | EditClicked =>
      if negb (edit_section_rendered st) || edit_button_disabled st then (st, None)
      else handleEdit st
  | EditEnterPressed =>
      if negb (edit_section_rendered st) then (st, None) else handleEdit st
  | StyleTyped s => (setStylePrompt s st, None)
  | EditTyped s => (setEditPrompt s st, None)
  end.


(** *** Sequences of completed operations

    The states the coordinator can be in at rest: from [initial], any
    number of operations, each run to completion before the next one
    starts. Typing into the two text fields and the canvas editor's
    [setAnnotations] are operations too. *)

Inductive Op : Type :=
| OpUpload (file : option jsstring) (Date_now : nat -> Z) (o : Gemini.Outcome)
| OpGenerate (o : Gemini.Outcome)
| OpEdit (o : Gemini.Outcome)
| OpStyle (s : jsstring)
| OpEditText (s : jsstring)
| OpAnnotations (l : list Annotation.t).

Section Run.
Variable JSON_parse : jsstring -> Result JsValue.

Definition run (op : Op) (st : State) : State :=
  match op with
  | OpUpload file Date_now o => upload JSON_parse file Date_now o st
  | OpGenerate o => generate o st
  | OpEdit o => edit o st
  | OpStyle s => setStylePrompt s st
  | OpEditText s => setEditPrompt s st
  | OpAnnotations l => setAnnotations l st
  end.

Definition run_all (ops : list Op) (st : State) : State :=
  fold_left (fun acc op => run op acc) ops st.
End Run.

(** *** Calls in flight

    The coordinator together with the calls that were issued and have not
    settled yet. A step is an event of the user, an update of the
    annotations by the canvas editor, or the settlement of one call in
    flight, with any outcome of the service. *)

Inductive Pending : Type := PendingDetect | PendingGenerate | PendingEdit.

Definition pending_of (r : Request) : Pending :=
  match r with
  | DetectRequest _ => PendingDetect
  | GenerateRequest _ _ _ => PendingGenerate
  | EditRequest _ _ => PendingEdit
  end.

Record World : Type := mkWorld { app : State; inflight : list Pending }.

Definition issue (req : option Request) (l : list Pending) : list Pending :=
  match req with
  | Some r => l ++ [pending_of r]
  | None => l
  end.

Section Steps.
Variable JSON_parse : jsstring -> Result JsValue.

Inductive step : World -> World -> Prop :=
| step_event (ev : Event) (w : World) :
    step w (mkWorld (fst (dispatch ev (app w)))
                    (issue (snd (dispatch ev (app w))) (inflight w)))
| step_canvas (l : list Annotation.t) (w : World) :
    step w (mkWorld (setAnnotations l (app w)) (inflight w))
| step_detect_settles (Date_now : nat -> Z) (o : Gemini.Outcome) (w : World)
                      (before after : list Pending) :
    inflight w = before ++ PendingDetect :: after ->
    step w (mkWorld (handleFileUpload_settled
                       (Gemini.detectUVParts JSON_parse Date_now o) (app w))
                    (before ++ after))
| step_generate_settles (o : Gemini.Outcome) (w : World)
                        (before after : list Pending) :
    inflight w = before ++ PendingGenerate :: after ->
    step w (mkWorld (handleGenerate_settled (Gemini.generateTexture o) (app w))
                    (before ++ after))
| step_edit_settles (o : Gemini.Outcome) (w : World)
                    (before after : list Pending) :
    inflight w = before ++ PendingEdit :: after ->
    step w (mkWorld (handleEdit_settled (Gemini.editTexture o) (app w))
                    (before ++ after)).

Inductive reachable : World -> Prop :=
| reachable_initial : reachable (mkWorld initial [])
| reachable_step (w w' : World) : reachable w -> step w w' -> reachable w'.

End Steps.

End App.

(* ================================================================== *)
(** ** [components/CanvasEditor.tsx]                                   *)
(* ================================================================== *)

Module CanvasEditor.

(** The fields of [getBoundingClientRect()] the component reads. *)
Record Rect : Type := { left : number; top : number; width : number; height : number }.

(** The three [useState] cells of the component. The annotation list is
    a prop, owned by [App]. *)
Record State : Type := mkState
  { tempLabel : jsstring;
    pendingClick : option (number * number);
    draggingId : option jsstring }.

(** [((client - origin) / extent) * 100] *)
Definition percent (client origin extent : number) : number :=
  num_mul (num_div (num_sub client origin) extent) num_100.

(** [Math.max(0, Math.min(100, v))] *)
Definition clamp (v : number) : number := Math_max num_0 (Math_min num_100 v).

(** [ann.id === draggingId ? { ...ann, x, y } : ann] *)
Definition move_to (dragged : jsstring) (vx vy : number) (ann : Annotation.t)
  : Annotation.t :=
  if str_eqb (Annotation.id ann) dragged
  then Annotation.mk (Annotation.id ann) (VNum vx) (VNum vy) (Annotation.label ann)
  else ann.

(** [handlePointerMove]: the new annotation list, given the one the
    updater receives ([prev]). [container] is [containerRef.current]
    measured at the event. *)
Definition handlePointerMove (st : State) (container : option Rect)
           (clientX clientY : number) (prev : list Annotation.t)
  : list Annotation.t :=
  match draggingId st, container with
  | Some dragged, Some rect =>
      if str_truthy dragged then
        let vx := clamp (percent clientX (left rect) (width rect)) in
        let vy := clamp (percent clientY (top rect) (height rect)) in
        map (move_to dragged vx vy) prev
      else prev
  | _, _ => prev
  end.

Definition handlePointerUp (st : State) : State :=
  if opt_truthy (draggingId st)
  then mkState (tempLabel st) (pendingClick st) None
  else st.

Definition handleImageClick (imageSrc : option jsstring) (container : option Rect)
           (clientX clientY : number) (st : State) : State :=
  if opt_truthy (draggingId st) || negb (opt_truthy imageSrc) then st
  else
    match container with
    | None => st
    | Some rect =>
        let vx := percent clientX (left rect) (width rect) in
        let vy := percent clientY (top rect) (height rect) in
        mkState (tempLabel st) (Some (vx, vy)) (draggingId st)
    end.

(** [addAnnotation]; [now] is the reading of [Date.now()]. The result is
    the annotation list and the component's state afterwards. *)
Definition addAnnotation (now : Z) (annotations : list Annotation.t) (st : State)
  : list Annotation.t * State :=
  match pendingClick st with
  | Some (px, py) =>
      if str_truthy (trim (tempLabel st)) then
        let newAnnotation :=
          Annotation.mk (int_toString now) (VNum px) (VNum py)
                        (VStr (trim (tempLabel st))) in
        (annotations ++ [newAnnotation], mkState [] None (draggingId st))
      else (annotations, st)
  | None => (annotations, st)
  end.

Definition removeAnnotation (id : jsstring) (annotations : list Annotation.t)
  : list Annotation.t :=
  filter (fun a => negb (str_eqb (Annotation.id a) id)) annotations.

Definition startDrag (id : jsstring) (st : State) : State :=
  mkState (tempLabel st) None (Some id).

Definition handleCancel (st : State) : State :=
  mkState [] None (draggingId st).

Definition setTempLabel (v : jsstring) (st : State) : State :=
  mkState v (pendingClick st) (draggingId st).

End CanvasEditor.


(* ================================================================== *)
(** ** [generateTexture]: the instruction it assembles                 *)
(* ================================================================== *)

Module GeminiPrompt.

Definition nl : jsstring := [10%N].
Definition quote : jsstring := [34%N].

(** [s.startsWith(w)] and [s.includes(w)] on code units. *)
Fixpoint starts_with (w s : jsstring) : bool :=
  match w, s with
  | [], _ => true
  | c :: w', d :: s' => N.eqb c d && starts_with w' s'
  | _ :: _, [] => false
  end.

Fixpoint includes (s w : jsstring) : bool :=
  starts_with w s ||
  match s with
  | [] => false
  | _ :: r => includes r w
  end.

(** The four words looked for in a lower-cased label:
    ['face'], ['head'] and their two Russian counterparts. *)
Definition word_face : jsstring := lit "face".
Definition word_head : jsstring := lit "head".
Definition word_litso : jsstring := [1083; 1080; 1094; 1086]%N.
Definition word_golova : jsstring := [1075; 1086; 1083; 1086; 1074; 1072]%N.

Definition mentions_face (labelLower : jsstring) : bool :=
  includes labelLower word_face || includes labelLower word_head ||
  includes labelLower word_litso || includes labelLower word_golova.

Definition header : jsstring :=
  lit "COORDINATES OF BODY PARTS (Center points):" ++ nl.

Definition face_marked : jsstring :=
  lit "Focus on the area marked " ++ quote ++ lit "Face" ++ quote ++
  lit " or " ++ quote ++ lit "Head" ++ quote ++ lit ".".
Definition face_unmarked : jsstring := lit "Locate the Face area.".

(** The template literal [fullPrompt], cut at its four placeholders. *)
Definition prompt_part_0 : jsstring :=
  nl ++
  lit "    You are a professional 3D Texture Artist for Roblox." ++ nl ++
  lit "    " ++ nl ++
  lit "    INPUT: A UV Layout wireframe image." ++ nl ++
  lit "    TASK: Create a FINAL PRODUCTION TEXTURE." ++ nl ++
  lit "    " ++ nl ++
  lit "    STYLE DESCRIPTION: ".

Definition prompt_part_1 : jsstring :=
  nl ++
  lit "    " ++ nl ++
  lit "    ".

Definition prompt_part_2 : jsstring :=
  nl ++
  lit "    " ++ nl ++
  lit "    CRITICAL RENDERING RULES (MUST FOLLOW):" ++ nl ++
  lit "    1. **OBLITERATE THE WIREFRAME**: The input image contains black layout lines. You must PAINT COMPLETELY OVER THEM. The final output must be a solid, painted texture map. If I see the original grid lines in the output, it is a failure." ++ nl ++
  lit "    2. **SOLID FILL**: Fill the texture islands with opaque materials (metal, cloth, skin, etc.) based on the style. No transparency inside the body parts." ++ nl ++
  lit "    3. **FACE**: ".

Definition prompt_part_3 : jsstring :=
  lit " Paint a human/character face (eyes, mouth) suitable for the style. **DO NOT DRAW A HELMET OVER THE FACE**. The helmet is a separate 3D attachment. The face must be visible." ++ nl ++
  lit "    4. **LAYOUT ACCURACY**: Keep the painted areas exactly in the same positions as the input islands, but replace the wireframe pixels with texture pixels." ++ nl ++
  lit "    5. **BACKGROUND**: The space between the body parts should be transparent or solid black/dark." ++ nl ++
  lit "    " ++ nl ++
  lit "    Think: " ++ quote ++ lit "I see the wireframe guide. I will paint a ".

Definition prompt_part_4 : jsstring :=
  lit " texture on top of it, covering every single black line with color. For the face, I will draw a face, not a mask." ++ quote ++ nl ++
  lit "  ".

Definition fullPrompt (stylePrompt annotationText : jsstring) (faceDefined : bool)
  : jsstring :=
  prompt_part_0 ++ stylePrompt ++ prompt_part_1 ++ annotationText ++
  prompt_part_2 ++ (if faceDefined then face_marked else face_unmarked) ++
  prompt_part_3 ++ stylePrompt ++ prompt_part_4.

Section Runtime.

(** What the run time does and the embedding leaves open: the text of
    [`${Math.round(v)}`], the text of [`${v}`] for a value that is not a
    string, [String.prototype.toLowerCase], and the message of the
    [TypeError] that [v.toLowerCase()] raises on a value that is not a
    string. *)
Variable round_text : JsValue -> jsstring.
Variable other_text : JsValue -> jsstring.
Variable toLowerCase : jsstring -> jsstring.
Variable type_error_message : JsValue -> jsstring.

(** [`${v}`] *)
Definition template_text (v : JsValue) : jsstring :=
  match v with
  | VStr s => s
  | _ => other_text v
  end.

(** The line appended for one annotation:
    [- At <round x>% x, <round y>% y: <label in quotes>.] and a newline. *)
Definition annotation_line (ann : Annotation.t) : jsstring :=
  lit "- At " ++ round_text (Annotation.x ann) ++ lit "% x, " ++
  round_text (Annotation.y ann) ++ lit "% y: " ++ quote ++
  template_text (Annotation.label ann) ++ quote ++ lit "." ++ nl.

(** The callback of [annotations.forEach] on the pair
    [(annotationText, faceDefined)]. Only a string has [toLowerCase]. *)
Definition visit (acc : jsstring * bool) (ann : Annotation.t)
  : Result (jsstring * bool) :=
  let annotationText := fst acc ++ annotation_line ann in
  match Annotation.label ann with
  | VStr s =>
      if mentions_face (toLowerCase s) then Returned (annotationText, true)
      else Returned (annotationText, snd acc)
  | v => Threw (type_error_message v)
  end.

Fixpoint forEach (annotations : list Annotation.t) (acc : jsstring * bool)
  : Result (jsstring * bool) :=
  match annotations with
  | [] => Returned acc
  | ann :: rest =>
      match visit acc ann with
      | Threw m => Threw m
      | Returned acc' => forEach rest acc'
      end
  end.

(** The lines before [fullPrompt]: [if (annotations.length > 0) { ... }]. *)
Definition describe (annotations : list Annotation.t) : Result (jsstring * bool) :=
  match annotations with
  | [] => Returned ([], false)
  | _ :: _ => forEach annotations (header, false)
  end.

(** [generateTexture] with its arguments. [service] is the external
    service: the outcome of [generateContent] for the instruction and the
    image it is sent. The instruction is assembled before the [try], so
    an exception there leaves the function as it is. *)
Definition generateTexture
           (service : jsstring -> option jsstring -> Gemini.Outcome)
           (baseImageBase64 : option jsstring) (stylePrompt : jsstring)
           (annotations : list Annotation.t) : Result jsstring :=
  match describe annotations with
  | Threw m => Threw m
  | Returned (annotationText, faceDefined) =>
      Gemini.generateTexture
        (service (fullPrompt stylePrompt annotationText faceDefined)
                 baseImageBase64)
  end.

(** [handleGenerate] run to completion against that service. *)
Definition generate (service : jsstring -> option jsstring -> Gemini.Outcome)
           (st : App.State) : App.State :=
  match App.handleGenerate st with
  | (st', Some (App.GenerateRequest base64Data style anns)) =>
      App.handleGenerate_settled (generateTexture service base64Data style anns) st'
  | (st', _) => st'
  end.

End Runtime.

End GeminiPrompt.

(* ================================================================== *)
(** ** The service functions, for every way a call can end             *)
(* ================================================================== *)

(** [Gemini.Outcome] keeps of a rejected call the message of the error
    it was rejected with, and [Gemini.generateTexture] starts at the
    [try]. Here the reason of a rejection is any value, as [catch
    (error: any)] receives it, and [generateTexture] runs from its first
    line. *)
Module GeminiCall.

(** How one call of [ai.models.generateContent] ends. *)
Inductive Settled : Type :=
| Fulfilled (r : Gemini.Response)
| Rejected (reason : JsValue).

(** An [Error] as a value: its [message] is an own property. *)
Definition error_object (message : jsstring) : JsValue :=
  VObj [(lit "message", VStr message)].


(** Truthiness of a value: [v || ...] takes [v] when this holds. *)
Definition truthy (v : JsValue) : bool :=
  match v with
  | VUndefined | VNull => false
  | VBool b => b
  | VNum n => match n with S754_zero _ | S754_nan => false | _ => true end
  | VStr s => str_truthy s
  | VArr _ | VObj _ => true
  end.

Section Runtime.

(** What the run time does and the embedding leaves open, besides the
    four of [GeminiPrompt]: the message of the [TypeError] that reading
    a property of [null] or [undefined] raises. *)
Variable round_text : JsValue -> jsstring.
Variable other_text : JsValue -> jsstring.
Variable toLowerCase : jsstring -> jsstring.
Variable type_error_message : JsValue -> jsstring.
Variable read_error_message : JsValue -> jsstring.

(** [error.message] *)
Definition message_of (error : JsValue) : Result JsValue :=
  match error with
  | VUndefined | VNull => Threw (read_error_message error)
  | VObj props => Returned (Gemini.own_prop (lit "message") props)
  | _ => Returned VUndefined
  end.

(** [catch (error) { ...; throw new Error(error.message || fallback); }]:
    the message of what leaves the [catch], the new [Error] or the
    [TypeError] of [error.message]. *)
Definition rethrown (fallback : jsstring) (error : JsValue) : jsstring :=
  match message_of error with
  | Threw m => m
  | Returned v =>
      if truthy v then GeminiPrompt.template_text other_text v else fallback
  end.

(** The [try] block of [generateTexture] and of [editTexture]: the value
    it returns, or the value it throws. *)
Definition image_try (none_msg : jsstring) (c : Settled) : jsstring + JsValue :=
  match c with
  | Rejected reason => inr reason
  | Fulfilled r =>
      match Gemini.first_inline (Gemini.response_parts r) with
      | Some d => inl (Gemini.data_uri d)
      | None => inr (error_object none_msg)
      end
  end.

(** The [try] statement with its [catch]. *)
Definition settle (none_msg fallback : jsstring) (c : Settled) : Result jsstring :=
  match image_try none_msg c with
  | inl s => Returned s
  | inr error => Threw (rethrown fallback error)
  end.

(** [editTexture]: its instruction is a template around a string, which
    cannot fail. *)
Definition editTexture (c : Settled) : Result jsstring :=
  settle (lit "No edited image data received.") (lit "Failed to edit texture") c.

(** [generateTexture] from its first line: the instruction is assembled
    before the [try]. *)
Definition generateTexture
           (service : jsstring -> option jsstring -> Settled)
           (baseImageBase64 : option jsstring) (stylePrompt : jsstring)
           (annotations : list Annotation.t) : Result jsstring :=
  match GeminiPrompt.describe round_text other_text toLowerCase
                              type_error_message annotations with
  | Threw m => Threw m
  | Returned (annotationText, faceDefined) =>
      settle (lit "No image data received from Gemini.")
             (lit "Failed to generate texture")
             (service (GeminiPrompt.fullPrompt stylePrompt annotationText faceDefined)
                      baseImageBase64)
  end.

End Runtime.

End GeminiCall.

(* ================================================================== *)
(** ** The canvas editor in use                                        *)
(* ================================================================== *)

Module CanvasSession.

(** What can happen to the editor: each constructor is one call of a
    handler of [CanvasEditor.tsx] with the data of its event. *)
Inductive Action : Type :=
| Click (container : option CanvasEditor.Rect) (clientX clientY : number)
| TypeLabel (s : jsstring)
| Commit (now : Z)                  (* [addAnnotation] at clock reading [now] *)
| Cancel
| StartDrag (id : jsstring)
| PointerMove (container : option CanvasEditor.Rect) (clientX clientY : number)
| PointerUp
| Remove (id : jsstring)
| ClearAll.                         (* [setAnnotations([])] *)

(** The annotation list (the prop) and the component's own state. *)
Definition Editor : Type := (list Annotation.t * CanvasEditor.State)%type.

Definition idle : CanvasEditor.State := CanvasEditor.mkState [] None None.

Definition act (imageSrc : option jsstring) (a : Action) (e : Editor) : Editor :=
  let (annotations, st) := e in
  match a with
  | Click container cx cy =>
      (annotations, CanvasEditor.handleImageClick imageSrc container cx cy st)
  | TypeLabel s => (annotations, CanvasEditor.setTempLabel s st)
  | Commit now => CanvasEditor.addAnnotation now annotations st
  | Cancel => (annotations, CanvasEditor.handleCancel st)
  | StartDrag id => (annotations, CanvasEditor.startDrag id st)
  | PointerMove container cx cy =>
      (CanvasEditor.handlePointerMove st container cx cy annotations, st)
  | PointerUp => (annotations, CanvasEditor.handlePointerUp st)
  | Remove id => (CanvasEditor.removeAnnotation id annotations, st)
  | ClearAll => ([], st)
  end.

Definition run (imageSrc : option jsstring) (actions : list Action) (e : Editor)
  : Editor :=
  fold_left (fun acc a => act imageSrc a acc) actions e.

(** The clock readings of the commits of a session. *)
Fixpoint commit_times (actions : list Action) : list Z :=
  match actions with
  | [] => []
  | Commit now :: rest => now :: commit_times rest
  | _ :: rest => commit_times rest
  end.

End CanvasSession.

(* ================================================================== *)
(** ** The page over time: file reads and calls that overlap           *)
(* ================================================================== *)

(** [App.handleFileUpload] and the [FileChosen] case of [App.dispatch]
    take the change event of the file input and [reader.onload] as one
    step: a read that ends before anything else happens. Here the read
    is a step of its own, as in the source, where [handleFileUpload]
    only starts the reader and [onload] runs when the file has been
    read; and a generation settles with what [generateTexture] does from
    its first line, for every way the call can end. *)
Module Timeline.

(** What has started and has not ended yet: a file being read, with the
    data URL the reader will deliver, or a call of a service function
    with its arguments. *)
Inductive Running : Type :=
| Reading (base64 : jsstring)
| Calling (req : App.Request).

(** [handleFileUpload], the handler of the change event: with a file it
    creates a reader, sets its [onload] and starts the read. It sets no
    state. *)
Definition handleFileUpload (file : option jsstring) (st : App.State)
  : App.State * option Running :=
  match file with
  | Some base64 => (st, Some (Reading base64))
  | None => (st, None)
  end.

(** The controls of the page; only the file input differs from
    [App.dispatch]. *)
Definition dispatch (ev : App.Event) (st : App.State) : App.State * option Running :=
  match ev with
  | App.FileChosen file =>
      if App.file_input_disabled st then (st, None) else handleFileUpload file st
  | _ => (fst (App.dispatch ev st), option_map Calling (snd (App.dispatch ev st)))
  end.

Record World : Type := mkWorld { app : App.State; running : list Running }.

Definition initial : World := mkWorld App.initial [].

Definition start (r : option Running) (l : list Running) : list Running :=
  match r with
  | Some x => l ++ [x]
  | None => l
  end.

Section Steps.
Variable JSON_parse : jsstring -> Result JsValue.
Variable round_text : JsValue -> jsstring.
Variable other_text : JsValue -> jsstring.
Variable toLowerCase : jsstring -> jsstring.
Variable type_error_message : JsValue -> jsstring.
Variable read_error_message : JsValue -> jsstring.

(** A step is an event of the user, an update of the annotations by the
    canvas editor, the end of a file read ([reader.onload], or a read
    that fails, for which the source sets no handler), or the settlement
    of a call: a detection with any outcome of the service, a generation
    or an edit with the call of the service ending in any way. *)
Inductive step : World -> World -> Prop :=
| step_event (ev : App.Event) (w : World) :
    step w (mkWorld (fst (dispatch ev (app w)))
                    (start (snd (dispatch ev (app w))) (running w)))
| step_canvas (l : list Annotation.t) (w : World) :
    step w (mkWorld (App.setAnnotations l (app w)) (running w))
| step_loaded (base64 : jsstring) (w : World) (before after : list Running) :
    running w = before ++ Reading base64 :: after ->
    step w (mkWorld (fst (App.handleFileUpload_onload base64 (app w)))
                    (start (option_map Calling
                              (snd (App.handleFileUpload_onload base64 (app w))))
                           (before ++ after)))
| step_read_fails (base64 : jsstring) (w : World) (before after : list Running) :
    running w = before ++ Reading base64 :: after ->
    step w (mkWorld (app w) (before ++ after))
| step_detect_settles (Date_now : nat -> Z) (o : Gemini.Outcome) (w : World)
                      (before after : list Running) (d : option jsstring) :
    running w = before ++ Calling (App.DetectRequest d) :: after ->
    step w (mkWorld (App.handleFileUpload_settled
                       (Gemini.detectUVParts JSON_parse Date_now o) (app w))
                    (before ++ after))
| step_generate_settles (c : GeminiCall.Settled) (w : World)
                        (before after : list Running)
                        (d : option jsstring) (s : jsstring)
                        (a : list Annotation.t) :
    running w = before ++ Calling (App.GenerateRequest d s a) :: after ->
    step w (mkWorld (App.handleGenerate_settled
                       (GeminiCall.generateTexture
                          round_text other_text toLowerCase type_error_message
                          read_error_message (fun _ _ => c) d s a)
                       (app w))
                    (before ++ after))
| step_edit_settles (c : GeminiCall.Settled) (w : World)
                    (before after : list Running)
                    (d : option jsstring) (i : jsstring) :
    running w = before ++ Calling (App.EditRequest d i) :: after ->
    step w (mkWorld (App.handleEdit_settled
                       (GeminiCall.editTexture other_text read_error_message c)
                       (app w))
                    (before ++ after)).

Inductive reachable : World -> Prop :=
| reachable_initial : reachable initial
| reachable_step (w w' : World) : reachable w -> step w w' -> reachable w'.

End Steps.

End Timeline.
(* ================================================================== *)
(** ** Sample data                                                     *)
(* ================================================================== *)

Module Sample.

(** Some numbers, in canonical binary64 form. *)
Definition n0 : number := S754_zero false.
Definition n20 : number := S754_finite false 5629499534213120 (-48).
Definition n25 : number := S754_finite false 7036874417766400 (-48).
Definition n50 : number := S754_finite false 7036874417766400 (-47).
Definition n80 : number := S754_finite false 5629499534213120 (-46).
Definition n150 : number := S754_finite false 5277655813324800 (-45).
Definition n200 : number := S754_finite false 7036874417766400 (-45).

Definition image_I : jsstring := lit "data:image/png;base64,SU1H".
Definition image_J : jsstring := lit "data:image/png;base64,Sk1H".
Definition result_R : jsstring := lit "data:image/png;base64,UkVT".
Definition style : jsstring := lit "cyberpunk armor".
Definition instruction : jsstring := lit "make it red".
Definition quota_exceeded : jsstring := lit "quota exceeded".

(** A clock that stands still. *)
Definition clock : nat -> Z := fun _ => 1700000000000%Z.

(** The face, as a detection at that clock reading reports it, and a
    torso placed by hand a millisecond later. *)
Definition face : Annotation.t :=
  Annotation.mk (lit "auto-1700000000000-0") (VNum n80) (VNum n20) (VStr (lit "Face")).
Definition torso : Annotation.t :=
  Annotation.mk (lit "1700000000001") (VNum n50) (VNum n50) (VStr (lit "Torso")).

(** A result is on display, nothing is in flight. *)
Definition with_result : App.State :=
  App.mkState (Some image_I) [face] style instruction false
              (mkGen false (Some result_R) None).

(** The same while a call is in flight. *)
Definition busy : App.State :=
  App.mkState (Some image_I) [face] style instruction false
              (mkGen true (Some result_R) None).

(** An image is loaded, the style text is blank. *)
Definition blank_style : App.State :=
  App.mkState (Some image_I) [face] (lit "   ") [] false
              (mkGen false (Some result_R) None).

End Sample.

Module SampleDetect.

Definition record (l : string) (vx vy : number) : JsValue :=
  VObj [(lit "label", VStr (lit l)); (lit "x", VNum vx); (lit "y", VNum vy)].

Definition two_parts : list JsValue :=
  [record "Face" Sample.n80 Sample.n20; record "Torso" Sample.n50 Sample.n50].

(** A parser that knows two texts and rejects every other one. *)
Definition body : jsstring := lit "[two parts]".
Definition face_body : jsstring := lit "[face]".
Definition parse (t : jsstring) : Result JsValue :=
  if str_eqb t body then Returned (VArr two_parts)
  else if str_eqb t face_body then
    Returned (VArr [record "Face" Sample.n80 Sample.n20])
  else Threw (lit "SyntaxError").

(** The service answers a detection with the text [t]. *)
Definition answer (t : jsstring) : Gemini.Outcome :=
  Gemini.Resolves {| Gemini.text := Some t; Gemini.candidates := None |}.

(** The service answers with a text part and then an image payload. *)
Definition image_answer (payload : jsstring) : Gemini.Outcome :=
  Gemini.Resolves
    {| Gemini.text := None;
       Gemini.candidates :=
         Some [ {| Gemini.content :=
                     Some {| Gemini.parts :=
                               Some [ {| Gemini.inlineData := None |};
                                      {| Gemini.inlineData :=
                                           Some {| Gemini.data := Some payload |} |} ] |} |} ] |}.

(** Upload, detection of the face, a style, a generation that succeeds,
    an edit instruction typed. *)
Definition session : list App.Op :=
  [ App.OpUpload (Some Sample.image_I) Sample.clock (answer face_body);
    App.OpStyle Sample.style;
    App.OpGenerate (image_answer (lit "UkVT"));
    App.OpEditText Sample.instruction ].

End SampleDetect.

Module SampleCanvas.

(** A container 200 by 200 whose left edge is at 100. *)
Definition rect : CanvasEditor.Rect :=
  {| CanvasEditor.left := num_100; CanvasEditor.top := Sample.n0;
     CanvasEditor.width := Sample.n200; CanvasEditor.height := Sample.n200 |}.


(** The pin [Sample.face] is being dragged. *)
Definition dragging : CanvasEditor.State :=
  CanvasEditor.mkState [] None (Some (Annotation.id Sample.face)).

(** A point was placed at (25, 50) and the label typed with blanks around. *)
Definition placing : CanvasEditor.State :=
  CanvasEditor.mkState (lit "  Face ") (Some (Sample.n25, Sample.n50)) None.

(** What a commit at clock reading 1700000000001 adds to an empty list
    from [placing]. *)
Definition committed : Annotation.t :=
  Annotation.mk (lit "1700000000001") (VNum Sample.n25) (VNum Sample.n50)
                (VStr (lit "Face")).

End SampleCanvas.

Module SampleExtra.


Definition image_part (payload : jsstring) : Gemini.Part :=
  {| Gemini.inlineData := Some {| Gemini.data := Some payload |} |}.

Definition two_images : Gemini.Outcome :=
  Gemini.Resolves
    {| Gemini.text := None;
       Gemini.candidates :=
         Some [ {| Gemini.content :=
                     Some {| Gemini.parts :=
                               Some [ image_part []; image_part (lit "UkVT");
                                      image_part (lit "T1RIRVI=") ] |} |} ] |}.

(** A detection answer whose items break the schema without being null:
    an object without fields and a bare number. *)
Definition loose_body : jsstring := lit "[{},5]".
Definition loose_items : list JsValue := [VObj []; VNum Sample.n50].
Definition loose_parse (t : jsstring) : Result JsValue :=
  if str_eqb t loose_body then Returned (VArr loose_items)
  else Threw (lit "SyntaxError").

(** An annotation as that detection produces it: no label. *)
Definition unlabeled : Annotation.t :=
  Annotation.mk (lit "auto-1700000000000-0") VUndefined VUndefined VUndefined.

(** A run time for the instruction: numbers print as "?", other values
    as "?", lower-casing maps A-Z to a-z, and a [TypeError] says so. *)
Definition round_text (v : JsValue) : jsstring := lit "?".
Definition other_text (v : JsValue) : jsstring := lit "?".
Definition lower (s : jsstring) : jsstring :=
  map (fun c => if (65 <=? c)%N && (c <=? 90)%N then (c + 32)%N else c) s.
Definition type_error_message (v : JsValue) : jsstring :=
  lit "ann.label.toLowerCase is not a function".

Definition read_error_message (v : JsValue) : jsstring :=
  lit "Cannot read properties of null (reading 'message')".


(** A service that always answers with the same image. *)
Definition service (prompt : jsstring) (image : option jsstring) : Gemini.Outcome :=
  SampleDetect.image_answer (lit "UkVT").


End SampleExtra.

Module SampleSession.

(** A click, a label, a commit, then a drag of the face that begins. *)
Definition placing_then_drag : list CanvasSession.Action :=
  [ CanvasSession.Click (Some SampleCanvas.rect) Sample.n150 Sample.n50;
    CanvasSession.TypeLabel (lit " Torso ");
    CanvasSession.Commit 1700000000001;
    CanvasSession.Click (Some SampleCanvas.rect) Sample.n150 Sample.n50;
    CanvasSession.StartDrag (Annotation.id Sample.face) ].

End SampleSession.

Module SampleWorld.


End SampleWorld.

(* ================================================================== *)
(** ** Vocabulary of the statements                                    *)
(* ================================================================== *)

Module DetectSpec.

Definition nullish (v : JsValue) : bool :=
  match v with VUndefined | VNull => true | _ => false end.

Definition is_array (v : JsValue) : bool :=
  match v with VArr _ => true | _ => false end.

(** A record of the response schema: an object whose [label] is a string
    and whose [x] and [y] are numbers. *)
Definition conforms (item : JsValue) : bool :=
  match item with
  | VObj props =>
      match Gemini.own_prop (lit "label") props,
            Gemini.own_prop (lit "x") props,
            Gemini.own_prop (lit "y") props with
      | VStr _, VNum _, VNum _ => true
      | _, _, _ => false
      end
  | _ => false
  end.

(** The ways a detection fails, as behaviours of the service and of the
    parser: the call raises; the response has no text, or an empty one;
    the text does not parse; it parses to something that is not an array;
    the array has a [null] among its items, on which the mapping raises;
    the array is empty. *)
Inductive Failure (JSON_parse : jsstring -> Result JsValue) : Gemini.Outcome -> Prop :=
| CallRaises (m : jsstring) :
    Failure JSON_parse (Gemini.Rejects m)
| TextAbsent (r : Gemini.Response) :
    Gemini.text r = None ->
    Failure JSON_parse (Gemini.Resolves r)
| TextEmpty (r : Gemini.Response) :
    Gemini.text r = Some [] ->
    Failure JSON_parse (Gemini.Resolves r)
| ParseFails (r : Gemini.Response) (t m : jsstring) :
    Gemini.text r = Some t -> JSON_parse t = Threw m ->
    Failure JSON_parse (Gemini.Resolves r)
| NotAnArray (r : Gemini.Response) (t : jsstring) (v : JsValue) :
    Gemini.text r = Some t -> JSON_parse t = Returned v -> is_array v = false ->
    Failure JSON_parse (Gemini.Resolves r)
| MappingFails (r : Gemini.Response) (t : jsstring) (items : list JsValue) :
    Gemini.text r = Some t -> JSON_parse t = Returned (VArr items) ->
    existsb nullish items = true ->
    Failure JSON_parse (Gemini.Resolves r)
| EmptyArray (r : Gemini.Response) (t : jsstring) :
    Gemini.text r = Some t -> JSON_parse t = Returned (VArr []) ->
    Failure JSON_parse (Gemini.Resolves r).

(** The ids [map] gives to [n] items from index [k] on. *)
Definition ids_from (Date_now : nat -> Z) (k n : nat) : list jsstring :=
  map (fun i => Gemini.auto_id (Date_now i) i) (seq k n).

End DetectSpec.

Module CanvasSpec.

(** A finite number above zero (the width or height of a container that
    is laid out). *)
Definition positive_finite (w : number) : bool :=
  match w with S754_finite false _ _ => true | _ => false end.

(** Where the id of an annotation in the list can come from when a new
    annotation is committed at clock reading [now]: from a detection, or
    from a commit at another reading of the clock. *)
Definition made_before (now : Z) (a : Annotation.t) : Prop :=
  (exists t i, Annotation.id a = Gemini.auto_id t i) \/
  (exists t, t <> now /\ Annotation.id a = int_toString t).


End CanvasSpec.

Module AppSpec.

(** A generate or an edit call is in flight. *)
Definition busy_call (l : list App.Pending) : Prop :=
  In App.PendingGenerate l \/ In App.PendingEdit l.

End AppSpec.

Module NumberSpec.






End NumberSpec.

Module ResponseSpec.

(** A part that carries an image: [part.inlineData && part.inlineData.data]. *)
Definition has_image (p : Gemini.Part) : bool :=
  match Gemini.inlineData p with
  | Some {| Gemini.data := Some d |} => str_truthy d
  | _ => false
  end.

Definition image_of (p : Gemini.Part) : jsstring :=
  match Gemini.inlineData p with
  | Some {| Gemini.data := Some d |} => d
  | _ => []
  end.

Definition no_image (ps : list Gemini.Part) : bool :=
  forallb (fun p => negb (has_image p)) ps.

(** The field [key] of a parsed item that is not [null]: the property of
    an object, [undefined] on anything else. *)
Definition field_or_undefined (key : jsstring) (item : JsValue) : JsValue :=
  match item with
  | VObj props => Gemini.own_prop key props
  | _ => VUndefined
  end.

End ResponseSpec.

Module PromptSpec.





Section Described.
Variable round_text : JsValue -> jsstring.
Variable other_text : JsValue -> jsstring.
Variable toLowerCase : jsstring -> jsstring.





End Described.

End PromptSpec.

Module CoordinatorSpec.

(** What the page can show: a result, when there is one, is the PNG data
    URI of a non-empty payload; an error, when there is one, is a
    non-empty text. *)
Definition presentable (g : GenerationState) : Prop :=
  (resultImage g = None \/
   exists d, str_truthy d = true /\ resultImage g = Some (Gemini.data_uri d)) /\
  (error g = None \/
   exists m, str_truthy m = true /\ error g = Some m).

End CoordinatorSpec.

Module TimelineSpec.

(** The number of detections in flight. *)
Fixpoint detections (l : list Timeline.Running) : nat :=
  match l with
  | [] => 0
  | Timeline.Calling (App.DetectRequest _) :: rest => S (detections rest)
  | _ :: rest => detections rest
  end.

(** A generate or an edit call is in flight. *)
Definition busy_call (l : list Timeline.Running) : Prop :=
  exists req, In (Timeline.Calling req) l /\
              match req with App.DetectRequest _ => False | _ => True end.

(** A detect call is in flight. *)
Definition detect_call (l : list Timeline.Running) : Prop :=
  exists d, In (Timeline.Calling (App.DetectRequest d)) l.

End TimelineSpec.

Module CallSpec.


End CallSpec.

Module SessionSpec.

(** Not both at once: an active drag and a pending placement. *)
Definition exclusive (st : CanvasEditor.State) : Prop :=
  opt_truthy (CanvasEditor.draggingId st) = true ->
  CanvasEditor.pendingClick st = None.

Definition ids (annotations : list Annotation.t) : list jsstring :=
  map Annotation.id annotations.

End SessionSpec.

(* ================================================================== *)
(** ** Properties of the service functions                             *)
(* ================================================================== *)

Section StringFacts.

Lemma str_truthy_nonempty (s : jsstring) : str_truthy s = true <-> s <> [].
Proof. destruct s; simpl; split; congruence. Qed.

Lemma str_or_truthy (a b : jsstring) :
  str_truthy b = true -> str_truthy (str_or a b) = true.
Proof. unfold str_or; destruct (str_truthy a) eqn:E; auto. Qed.

Lemma str_or_of_truthy (a b : jsstring) :
  str_truthy a = true -> str_or a b = a.
Proof. unfold str_or; intros ->; reflexivity. Qed.

Lemma str_eqb_eq (a b : jsstring) : str_eqb a b = true <-> a = b.
Proof.
  revert b; induction a as [|c a IH]; intros [|d b]; simpl;
    try (split; congruence).
  rewrite andb_true_iff, N.eqb_eq, IH. split.
  - intros [-> ->]; reflexivity.
  - intros E; injection E; auto.
Qed.

Lemma str_eqb_refl (a : jsstring) : str_eqb a a = true.
Proof. apply str_eqb_eq; reflexivity. Qed.

End StringFacts.

Section TrimFacts.

Lemma trimStart_blank (s : jsstring) :
  forallb is_space s = true -> trimStart s = [].
Proof.
  induction s as [|c r IH]; simpl; auto.
  intros H; apply andb_true_iff in H as [-> Hr]; auto.
Qed.

Lemma trimStart_not_blank (s : jsstring) :
  forallb is_space s = false -> trimStart s <> [].
Proof.
  induction s as [|c r IH]; simpl; [discriminate|].
  destruct (is_space c); simpl; auto. discriminate.
Qed.

Lemma trimStart_keeps_ink (s : jsstring) :
  forallb is_space s = false -> forallb is_space (trimStart s) = false.
Proof.
  induction s as [|c r IH]; simpl; auto.
  destruct (is_space c) eqn:E; simpl; auto.
  intros _; now rewrite E.
Qed.

Lemma forallb_rev (f : N -> bool) (s : jsstring) :
  forallb f (List.rev s) = forallb f s.
Proof.
  induction s as [|c r IH]; simpl; auto.
  rewrite forallb_app, IH; simpl. rewrite andb_true_r. apply andb_comm.
Qed.

(** [trim] leaves nothing exactly of the texts that are empty or made
    of white space only. *)
Lemma trim_blank_iff (s : jsstring) :
  str_truthy (trim s) = false <-> forallb is_space s = true.
Proof.
  split.
  - intros H. destruct (forallb is_space s) eqn:E; auto. exfalso.
    apply trimStart_keeps_ink in E.
    rewrite <- forallb_rev in E. apply trimStart_not_blank in E.
    unfold trim, trimEnd in H.
    destruct (trimStart (List.rev (trimStart s))) as [|c r]; [congruence|].
    simpl in H. destruct (List.rev r ++ [c]) eqn:F; [|discriminate].
    now apply app_eq_nil in F as [_ F].
  - intros H. unfold trim. now rewrite (trimStart_blank s H).
Qed.

Lemma trim_ink (s : jsstring) :
  forallb is_space s = false -> str_truthy (trim s) = true.
Proof.
  intros H. destruct (str_truthy (trim s)) eqn:E; auto.
  apply trim_blank_iff in E; congruence.
Qed.

Example trim_examples :
  trim (lit "  Face ") = lit "Face" /\
  trim [160; 9; 8195; 10]%N = [] /\
  trim (lit "a b") = lit "a b".
Proof. repeat split. Qed.

End TrimFacts.

Section ServiceFacts.
Import Gemini.

(** An error that leaves [generateTexture] or [editTexture] always
    carries a non-empty message. *)
Lemma rethrow_message (fallback : jsstring) (r : Result jsstring) (m : jsstring) :
  str_truthy fallback = true ->
  rethrow fallback r = Threw m -> str_truthy m = true.
Proof.
  intros Hf; destruct r as [v|m0]; simpl; intros E; [discriminate|].
  injection E as <-; apply str_or_truthy, Hf.
Qed.

Lemma generateTexture_message (o : Outcome) (m : jsstring) :
  generateTexture o = Threw m -> str_truthy m = true.
Proof. apply rethrow_message; reflexivity. Qed.

Lemma editTexture_message (o : Outcome) (m : jsstring) :
  editTexture o = Threw m -> str_truthy m = true.
Proof. apply rethrow_message; reflexivity. Qed.

(** The service's own message is passed on when it has one. *)
Lemma generateTexture_rejects (m : jsstring) :
  str_truthy m = true -> generateTexture (Rejects m) = Threw m.
Proof.
  intros H; unfold generateTexture; simpl; now rewrite str_or_of_truthy.
Qed.

Lemma editTexture_rejects (m : jsstring) :
  str_truthy m = true -> editTexture (Rejects m) = Threw m.
Proof.
  intros H; unfold editTexture; simpl; now rewrite str_or_of_truthy.
Qed.

End ServiceFacts.

(* ================================================================== *)
(** ** Properties of the coordinator                                   *)
(* ================================================================== *)

Section CoordinatorFacts.
Import App.

(** When [handleGenerate] passes both guards. *)
Lemma handleGenerate_starts (st : State) :
  opt_truthy (uvImage st) = true ->
  str_truthy (trim (stylePrompt st)) = true ->
  exists uv,
    uvImage st = Some uv /\
    handleGenerate st =
      (setGenState (fun _ => mkGen true None None) st,
       Some (GenerateRequest (split_comma_1 uv) (stylePrompt st) (annotations st))).
Proof.
  intros Hu Hs; unfold handleGenerate.
  destruct (uvImage st) as [uv|]; simpl in Hu; [|discriminate].
  exists uv; split; [reflexivity|].
  now rewrite Hu, Hs.
Qed.

Lemma handleEdit_starts (st : State) (R : jsstring) :
  resultImage (genState st) = Some R ->
  str_truthy R = true ->
  str_truthy (trim (editPrompt st)) = true ->
  handleEdit st =
    (setGenState (fun prev => mkGen true (resultImage prev) None) st,
     Some (EditRequest (split_comma_1 R) (editPrompt st))).
Proof.
  intros HR Ht Hp; unfold handleEdit; now rewrite HR, Ht, Hp.
Qed.

End CoordinatorFacts.

(* ================================================================== *)
(** ** A session, step by step                                         *)
(* ================================================================== *)

Section Session.
Import App.

(** Upload of image I whose detection finds the face, the style
    "cyberpunk armor", a generation that succeeds: the result is on
    display and [error] is null. *)
Example session_reaches_result :
  run_all SampleDetect.parse SampleDetect.session initial = Sample.with_result.
Proof. vm_compute. reflexivity. Qed.

(** A click on the edit button in that state puts the edit in flight. *)
Example edit_click_starts :
  dispatch EditClicked Sample.with_result
    = (Sample.busy, Some (EditRequest (Some (lit "UkVT")) Sample.instruction)).
Proof. vm_compute. reflexivity. Qed.

(** While that edit is in flight, Enter in the edit field starts another
    one: the key handler calls [handleEdit] without the test the button
    carries. *)
Example edit_enter_not_gated :
  isLoading (genState Sample.busy) = true /\
  dispatch EditEnterPressed Sample.busy
    = (Sample.busy, Some (EditRequest (Some (lit "UkVT")) Sample.instruction)).
Proof. split; vm_compute; reflexivity. Qed.

(** The first generation fails with "quota exceeded": no result, the
    message, not loading. *)
Example first_generate_fails :
  genState (generate (Gemini.Rejects Sample.quota_exceeded)
              (run_all SampleDetect.parse (firstn 2 SampleDetect.session) initial))
    = mkGen false None (Some Sample.quota_exceeded).
Proof. vm_compute. reflexivity. Qed.

End Session.

(* ================================================================== *)
(** ** Generate and edit: failure of the service                       *)
(* ================================================================== *)

Section GenerateEditFailure.
Import App.

(** C1, as the claim puts it, fails: with the result [result_R] on
    display and both guards of [handleGenerate] passed, a service call
    that raises "quota exceeded" leaves [resultImage] null, not
    [result_R]. *)
Lemma generate_failure_keeps_result_counterexample :
  resultImage (genState Sample.with_result) = Some Sample.result_R /\
  snd (handleGenerate Sample.with_result) <> None /\
  Gemini.generateTexture (Gemini.Rejects Sample.quota_exceeded)
    = Threw Sample.quota_exceeded /\
  resultImage (genState (generate (Gemini.Rejects Sample.quota_exceeded)
                                  Sample.with_result))
    <> Some Sample.result_R.
Proof. repeat split; vm_compute; congruence. Qed.

(** C1 (amended): when [handleGenerate] passes its guards (an image is
    loaded, the style text is not blank) and [generateTexture] then
    throws with message [m], the generation state afterwards is exactly
    [{isLoading: false, resultImage: null, error: m}], whatever result
    was on display before; [m] is not empty; nothing else of the state
    changes. *)
Theorem generate_failure_state (st : State) (o : Gemini.Outcome) (m : jsstring) :
  opt_truthy (uvImage st) = true ->
  str_truthy (trim (stylePrompt st)) = true ->
  Gemini.generateTexture o = Threw m ->
  genState (generate o st) = mkGen false None (Some m) /\
  m <> [] /\
  uvImage (generate o st) = uvImage st /\
  annotations (generate o st) = annotations st /\
  stylePrompt (generate o st) = stylePrompt st /\
  editPrompt (generate o st) = editPrompt st /\
  isDetecting (generate o st) = isDetecting st.
Proof.
  intros Hu Hs Hm.
  destruct (handleGenerate_starts st Hu Hs) as (uv & _ & Hstart).
  pose proof (generateTexture_message o m Hm) as Hne.
  unfold generate; rewrite Hstart, Hm; simpl.
  rewrite (str_or_of_truthy _ _ Hne).
  repeat split; auto. now apply str_truthy_nonempty.
Qed.

Lemma generate_failure_state_witness :
  genState (generate (Gemini.Rejects Sample.quota_exceeded) Sample.with_result)
    = mkGen false None (Some Sample.quota_exceeded).
Proof.
  apply (generate_failure_state Sample.with_result
           (Gemini.Rejects Sample.quota_exceeded) Sample.quota_exceeded);
    reflexivity.
Defined.

(** C6: with a result image [R] on display and an edit instruction that
    is not blank, an edit whose service call fails with message [m]
    leaves [{isLoading: false, resultImage: R, error: m}]; [m] is not
    empty; nothing else of the state changes. *)
Theorem edit_failure_keeps_result (st : State) (R : jsstring)
        (o : Gemini.Outcome) (m : jsstring) :
  resultImage (genState st) = Some R ->
  str_truthy R = true ->
  str_truthy (trim (editPrompt st)) = true ->
  Gemini.editTexture o = Threw m ->
  genState (edit o st) = mkGen false (Some R) (Some m) /\
  m <> [] /\
  uvImage (edit o st) = uvImage st /\
  annotations (edit o st) = annotations st /\
  stylePrompt (edit o st) = stylePrompt st /\
  editPrompt (edit o st) = editPrompt st /\
  isDetecting (edit o st) = isDetecting st.
Proof.
  intros HR Ht Hp Hm.
  pose proof (editTexture_message o m Hm) as Hne.
  unfold edit; rewrite (handleEdit_starts st R HR Ht Hp), Hm; simpl.
  rewrite (str_or_of_truthy _ _ Hne), HR.
  repeat split; auto. now apply str_truthy_nonempty.
Qed.

Lemma edit_failure_keeps_result_witness :
  genState (edit (Gemini.Rejects Sample.quota_exceeded) Sample.with_result)
    = mkGen false (Some Sample.result_R) (Some Sample.quota_exceeded).
Proof.
  apply (edit_failure_keeps_result Sample.with_result Sample.result_R
           (Gemini.Rejects Sample.quota_exceeded) Sample.quota_exceeded);
    reflexivity.
Defined.

End GenerateEditFailure.

(* ================================================================== *)
(** ** Validation of the style text                                    *)
(* ================================================================== *)

Section Validation.
Import App.

Lemma msg_style_required_visible : str_truthy msg_style_required = true.
Proof. reflexivity. Qed.

(** C4: with an image loaded and a style text that is empty or blank,
    [handleGenerate] issues no request, sets [error] to the (non-empty)
    validation message and changes nothing else: [resultImage],
    [isLoading], the annotation list and the other cells keep their
    values. Run to completion, the operation is the same whatever the
    service would have answered. *)
Theorem generate_blank_style_rejected (st : State) :
  opt_truthy (uvImage st) = true ->
  forallb is_space (stylePrompt st) = true ->
  snd (handleGenerate st) = None /\
  error (genState (fst (handleGenerate st))) = Some msg_style_required /\
  msg_style_required <> [] /\
  resultImage (genState (fst (handleGenerate st))) = resultImage (genState st) /\
  isLoading (genState (fst (handleGenerate st))) = isLoading (genState st) /\
  annotations (fst (handleGenerate st)) = annotations st /\
  uvImage (fst (handleGenerate st)) = uvImage st /\
  stylePrompt (fst (handleGenerate st)) = stylePrompt st /\
  editPrompt (fst (handleGenerate st)) = editPrompt st /\
  isDetecting (fst (handleGenerate st)) = isDetecting st /\
  forall o, generate o st = fst (handleGenerate st).
Proof.
  intros Hu Hs. apply trim_blank_iff in Hs. unfold generate, handleGenerate.
  destruct (uvImage st) as [uv|] eqn:Euv; simpl in Hu; [|discriminate].
  rewrite Hu, Hs; simpl. rewrite Euv.
  repeat split; auto. discriminate.
Qed.

Lemma generate_blank_style_rejected_witness :
  snd (handleGenerate Sample.blank_style) = None /\
  error (genState (fst (handleGenerate Sample.blank_style)))
    = Some msg_style_required.
Proof.
  destruct (generate_blank_style_rejected Sample.blank_style)
    as (H1 & H2 & _); [reflexivity | reflexivity |].
  exact (conj H1 H2).
Defined.

End Validation.

(* ================================================================== *)
(** ** Upload                                                          *)
(* ================================================================== *)

Section UploadFacts.
Import App.
Variable JSON_parse : jsstring -> Result JsValue.


Lemma handleFileUpload_settled_genState r st :
  genState (handleFileUpload_settled r st) = genState st.
Proof. destruct r as [[|a l]|m]; reflexivity. Qed.


Lemma upload_isLoading (st : State) (file : option jsstring)
      (Date_now : nat -> Z) (o : Gemini.Outcome) :
  isLoading (genState (upload JSON_parse file Date_now o st))
    = isLoading (genState st).
Proof.
  unfold upload, handleFileUpload, handleFileUpload_onload.
  destruct file as [base64|]; cbn [fst snd]; [|reflexivity].
  now rewrite handleFileUpload_settled_genState.
Qed.


End UploadFacts.

(* ================================================================== *)
(** ** The busy gate                                                   *)
(* ================================================================== *)

Section BusyGate.
Import App.




End BusyGate.

(* ================================================================== *)
(** ** The generation state at rest                                    *)
(* ================================================================== *)

Section AtRest.
Import App.
Variable JSON_parse : jsstring -> Result JsValue.

Lemma generate_idle o st : isLoading (genState (generate o st)) = false \/
                           generate o st = st \/
                           isLoading (genState (generate o st)) = isLoading (genState st).
Proof.
  unfold generate, handleGenerate.
  destruct (uvImage st) as [uv|]; [|auto].
  destruct (str_truthy uv); simpl; [|auto].
  destruct (str_truthy (trim (stylePrompt st))); simpl; [|auto].
  left. destruct (Gemini.generateTexture o); reflexivity.
Qed.

Lemma edit_idle o st : isLoading (genState (edit o st)) = false \/ edit o st = st.
Proof.
  unfold edit, handleEdit.
  destruct (resultImage (genState st)) as [img|]; [|auto].
  destruct (str_truthy img); simpl; [|auto].
  destruct (str_truthy (trim (editPrompt st))); simpl; [|auto].
  left. destruct (Gemini.editTexture o); reflexivity.
Qed.

(** Every completed operation leaves [isLoading] false if it found it
    false. *)
Lemma run_idle (op : Op) (st : State) :
  isLoading (genState st) = false ->
  isLoading (genState (run JSON_parse op st)) = false.
Proof.
  intros H. destruct op as [file clock o|o|o|s|s|l]; simpl; auto.
  - now rewrite upload_isLoading.
  - destruct (generate_idle o st) as [E|[E|E]]; congruence.
  - destruct (edit_idle o st) as [E|E]; congruence.
Qed.

Lemma run_all_idle (ops : list Op) (st : State) :
  isLoading (genState st) = false ->
  isLoading (genState (run_all JSON_parse ops st)) = false.
Proof.
  revert st; induction ops as [|op ops IH]; intros st H; simpl; auto.
  apply IH, run_idle, H.
Qed.

End AtRest.

(* ================================================================== *)
(** ** The generation state with calls in flight                       *)
(* ================================================================== *)

Section InFlight.
Import App AppSpec.
Variable JSON_parse : jsstring -> Result JsValue.

Lemma handleGenerate_cases (st : State) :
  handleGenerate st = (st, None) \/
  handleGenerate st =
    (setGenState (fun prev => mkGen (isLoading prev) (resultImage prev)
                                    (Some msg_style_required)) st, None) \/
  exists d,
    handleGenerate st =
      (setGenState (fun _ => mkGen true None None) st,
       Some (GenerateRequest d (stylePrompt st) (annotations st))).
Proof.
  unfold handleGenerate.
  destruct (uvImage st) as [uv|]; auto.
  destruct (str_truthy uv); simpl; auto.
  destruct (str_truthy (trim (stylePrompt st))); simpl; eauto.
Qed.

Lemma handleEdit_cases (st : State) :
  handleEdit st = (st, None) \/
  exists d,
    handleEdit st =
      (setGenState (fun prev => mkGen true (resultImage prev) None) st,
       Some (EditRequest d (editPrompt st))).
Proof.
  unfold handleEdit.
  destruct (resultImage (genState st)) as [img|]; auto.
  destruct (negb (str_truthy img) || negb (str_truthy (trim (editPrompt st))));
    eauto.
Qed.

(** What an event of the user can do to [isLoading]: it stays as it
    was unless a generate or edit request is issued. *)
Lemma dispatch_isLoading (ev : Event) (st : State) :
  match snd (dispatch ev st) with
  | None | Some (DetectRequest _) =>
      isLoading (genState (fst (dispatch ev st))) = isLoading (genState st)
  | Some _ => True
  end.
Proof.
  destruct ev as [[b|]| | | |s|s]; unfold dispatch;
    try (destruct (file_input_disabled st); reflexivity);
    try reflexivity.
  - destruct (generate_button_disabled st); [reflexivity|].
    destruct (handleGenerate_cases st) as [-> | [-> | (d & ->)]];
      simpl; auto.
  - destruct (negb (edit_section_rendered st) || edit_button_disabled st);
      [reflexivity|].
    destruct (handleEdit_cases st) as [-> | (d & ->)]; simpl; auto.
  - destruct (negb (edit_section_rendered st)); [reflexivity|].
    destruct (handleEdit_cases st) as [-> | (d & ->)]; simpl; auto.
Qed.

(** While [isLoading] is true, [error] is null: the two are set
    together at the start of a call, and an error is only stored with
    [isLoading] false or by the validation of an idle coordinator. *)
Lemma dispatch_loading_no_error (ev : Event) (st : State) :
  (isLoading (genState st) = true -> error (genState st) = None) ->
  isLoading (genState (fst (dispatch ev st))) = true ->
  error (genState (fst (dispatch ev st))) = None.
Proof.
  intros J.
  destruct ev as [[b|]| | | |s|s]; unfold dispatch;
    try (destruct (file_input_disabled st); simpl; auto; fail);
    try (simpl; auto; fail).
  - destruct (generate_button_disabled st) eqn:G; [simpl; auto|].
    unfold generate_button_disabled in G.
    apply orb_false_iff in G as [G _]. apply orb_false_iff in G as [_ G].
    destruct (handleGenerate_cases st) as [-> | [-> | (d & ->)]];
      simpl; auto.
    (* the validation message: the button was enabled, nothing is loading *)
    rewrite G; discriminate.
  - destruct (negb (edit_section_rendered st) || edit_button_disabled st);
      [simpl; auto|].
    destruct (handleEdit_cases st) as [-> | (d & ->)]; simpl; auto.
  - destruct (negb (edit_section_rendered st)); [simpl; auto|].
    destruct (handleEdit_cases st) as [-> | (d & ->)]; simpl; auto.
Qed.

Lemma in_remove_middle (x y : Pending) (before after : list Pending) :
  x <> y -> In x (before ++ y :: after) -> In x (before ++ after).
Proof.
  intros N H. apply in_app_or in H as [H|[H|H]]; apply in_or_app; auto.
  congruence.
Qed.

Lemma reachable_invariants (w : World) :
  reachable JSON_parse w ->
  (isLoading (genState (app w)) = true -> error (genState (app w)) = None) /\
  (isLoading (genState (app w)) = true -> busy_call (inflight w)).
Proof.
  induction 1 as [|w w' _ [J K] S].
  - split; simpl; discriminate.
  - destruct S as [ev w|l w|clock o w before after E|o w before after E
                  |o w before after E]; cbn [app inflight].
    + split; [apply dispatch_loading_no_error, J|].
      pose proof (dispatch_isLoading ev (app w)) as D.
      destruct (snd (dispatch ev (app w))) as [[d|d s a|d i]|]; simpl; intros L.
      * rewrite D in L. destruct (K L); [left|right]; apply in_or_app; auto.
      * left; apply in_or_app; right; left; reflexivity.
      * right; apply in_or_app; right; left; reflexivity.
      * rewrite D in L. exact (K L).
    + split; auto.
    + rewrite handleFileUpload_settled_genState. split; auto.
      intros L. rewrite E in K.
      destruct (K L) as [G|G]; [left|right];
        eapply in_remove_middle; try exact G; discriminate.
    + destruct (Gemini.generateTexture o); simpl; split; discriminate.
    + destruct (Gemini.editTexture o); simpl; split; discriminate.
Qed.

(** In every reachable state, with calls in flight or not, [isLoading]
    and a non-null [error] do not hold together. *)
Lemma loading_excludes_error_always (w : World) :
  reachable JSON_parse w ->
  ~ (isLoading (genState (app w)) = true /\ error (genState (app w)) <> None).
Proof.
  intros R [L E]. destruct (reachable_invariants w R) as [J _]. auto.
Qed.

(** When no call is in flight, [isLoading] is false. *)
Lemma idle_at_rest (w : World) :
  reachable JSON_parse w -> inflight w = [] ->
  isLoading (genState (app w)) = false.
Proof.
  intros R E. destruct (reachable_invariants w R) as [_ K].
  destruct (isLoading (genState (app w))); auto.
  rewrite E in K. destruct (K eq_refl) as [[]|[]].
Qed.

End InFlight.

Section AtRestInvariant.
Import App.
Variable JSON_parse : jsstring -> Result JsValue.

(** C9: in every state reached from the initial one by a sequence of
    completed operations (uploads, generations and edits with any
    outcome of the service, their guard and failure paths included, and
    edits of the texts and of the annotations), [isLoading] is false, so
    [isLoading] and a non-null [error] never hold together. The same
    holds when calls overlap: in every state reachable with calls in
    flight the two never hold together, and whenever no call is in
    flight [isLoading] is false. *)
Theorem loading_excludes_error_at_rest :
  (forall ops : list Op,
      isLoading (genState (run_all JSON_parse ops initial)) = false /\
      ~ (isLoading (genState (run_all JSON_parse ops initial)) = true /\
         error (genState (run_all JSON_parse ops initial)) <> None)) /\
  (forall w : World,
      reachable JSON_parse w ->
      ~ (isLoading (genState (app w)) = true /\
         error (genState (app w)) <> None)) /\
  (forall w : World,
      reachable JSON_parse w -> inflight w = [] ->
      isLoading (genState (app w)) = false).
Proof.
  split; [|split].
  - intros ops.
    assert (E : isLoading (genState (run_all JSON_parse ops initial)) = false)
      by (apply run_all_idle; reflexivity).
    split; [exact E|]. intros [H _]; congruence.
  - apply loading_excludes_error_always.
  - apply idle_at_rest.
Qed.

End AtRestInvariant.

Section AtRestWitness.
Import App.

Lemma loading_excludes_error_at_rest_witness :
  isLoading (genState (run_all SampleDetect.parse SampleDetect.session initial))
    = false /\
  isLoading (genState (app (mkWorld initial []))) = false.
Proof.
  destruct (loading_excludes_error_at_rest SampleDetect.parse) as (S & _ & R).
  split.
  - apply (S SampleDetect.session).
  - apply (R (mkWorld initial [])); [apply reachable_initial | reflexivity].
Defined.

End AtRestWitness.

Section Overlap.
Import App.

(** An edit and a detection in flight together: after the session that
    put a result on display, the edit button is clicked and, before the
    edit settles, another file is chosen. *)
Example two_calls_in_flight :
  exists st,
    reachable SampleDetect.parse (mkWorld st [PendingEdit; PendingDetect]) /\
    isLoading (genState st) = true /\ isDetecting st = true.
Proof.
  pose proof (reachable_initial SampleDetect.parse) as R.
  pose proof (reachable_step _ _ _ R
                (step_event _ (FileChosen (Some Sample.image_I)) _)) as R1.
  pose proof (fun E => reachable_step _ _ _ R1
                (step_detect_settles _ Sample.clock
                   (SampleDetect.answer SampleDetect.face_body) _ [] [] E))
    as R2.
  specialize (R2 eq_refl).
  pose proof (reachable_step _ _ _ R2
                (step_event _ (StyleTyped Sample.style) _)) as R3.
  pose proof (reachable_step _ _ _ R3 (step_event _ GenerateClicked _)) as R4.
  pose proof (fun E => reachable_step _ _ _ R4
                (step_generate_settles _ (SampleDetect.image_answer (lit "UkVT")) _
                   [] [] E)) as R5.
  specialize (R5 eq_refl).
  pose proof (reachable_step _ _ _ R5
                (step_event _ (EditTyped Sample.instruction) _)) as R6.
  pose proof (reachable_step _ _ _ R6 (step_event _ EditClicked _)) as R7.
  pose proof (reachable_step _ _ _ R7
                (step_event _ (FileChosen (Some Sample.image_J)) _)) as R8.
  eexists; split; [exact R8|]. split; reflexivity.
Qed.

End Overlap.

(* ================================================================== *)
(** ** Detection                                                       *)
(* ================================================================== *)

Section DecimalFacts.

Lemma digits_inj (u v : Decimal.uint) : digits u = digits v -> u = v.
Proof.
  revert v; induction u; intros v; destruct v; simpl; intros E;
    try discriminate; try reflexivity;
    injection E as E; f_equal; auto.
Qed.

Lemma digits_no_dash (u : Decimal.uint) : ~ In 45%N (digits u).
Proof.
  induction u; simpl; intros H; auto;
    destruct H as [H|H]; try discriminate; auto.
Qed.

Lemma nat_toString_inj (i j : nat) : nat_toString i = nat_toString j -> i = j.
Proof.
  unfold nat_toString, N_toString; intros E.
  apply digits_inj, DecimalN.Unsigned.to_uint_inj in E.
  now apply Nnat.Nat2N.inj.
Qed.

(** Two texts that agree and both end in [c] followed by a [c]-free
    suffix have the same suffix. *)
Lemma cut_at_last (c : N) (a a' b b' : jsstring) :
  ~ In c b -> ~ In c b' -> a ++ c :: b = a' ++ c :: b' -> b = b'.
Proof.
  intros Hb Hb' E.
  apply (f_equal (@List.rev N)) in E.
  rewrite !rev_app_distr in E; simpl in E. rewrite <- !app_assoc in E; simpl in E.
  assert (Hr : ~ In c (List.rev b)) by (rewrite <- in_rev; exact Hb).
  assert (Hr' : ~ In c (List.rev b')) by (rewrite <- in_rev; exact Hb').
  assert (G : forall u v w w' : jsstring,
             ~ In c u -> ~ In c v -> u ++ c :: w = v ++ c :: w' -> u = v).
  { induction u as [|d u IH]; intros [|e v] w w' Hu Hv F; simpl in *.
    - reflexivity.
    - injection F as F _. subst e. exfalso; apply Hv; auto.
    - injection F as F _. subst d. exfalso; apply Hu; auto.
    - injection F as F1 F2. subst e. f_equal.
      apply (IH v w w'); auto. }
  apply G in E; auto.
  rewrite <- (rev_involutive b), <- (rev_involutive b'). now f_equal.
Qed.

(** The id of a detected annotation determines its index. *)
Lemma auto_id_index (t t' : Z) (i j : nat) :
  Gemini.auto_id t i = Gemini.auto_id t' j -> i = j.
Proof.
  unfold Gemini.auto_id; intros E.
  apply app_inv_head in E.
  apply nat_toString_inj.
  change (lit "-") with [45%N] in E. simpl in E.
  apply (cut_at_last 45 (int_toString t) (int_toString t')); auto;
    apply digits_no_dash.
Qed.

End DecimalFacts.

Section DetectFacts.
Import Gemini DetectSpec.
Variable JSON_parse : jsstring -> Result JsValue.
Variable Date_now : nat -> Z.

Lemma to_annotation_nullish (item : JsValue) (i : nat) :
  nullish item = true -> to_annotation Date_now item i = Threw type_error.
Proof. destruct item; simpl; intros H; try discriminate; reflexivity. Qed.

Lemma to_annotation_value (item : JsValue) (i : nat) :
  nullish item = false -> exists a, to_annotation Date_now item i = Returned a.
Proof.
  destruct item; simpl; intros H; try discriminate;
    unfold to_annotation; simpl; eexists; reflexivity.
Qed.

(** The mapping raises as soon as one item is [null]. *)
Lemma map_from_nullish (items : list JsValue) (k : nat) :
  existsb nullish items = true -> exists m, map_from Date_now k items = Threw m.
Proof.
  revert k; induction items as [|item rest IH]; intros k H; simpl in *.
  - discriminate.
  - destruct (nullish item) eqn:E.
    + rewrite (to_annotation_nullish item k E). eauto.
    + destruct (to_annotation_value item k E) as [a ->].
      destruct (IH (S k) H) as [m ->]. eauto.
Qed.

(** On records the mapping returns one annotation per record, in order,
    with the record's fields, the id built from the index. *)
Lemma map_from_records (items : list JsValue) (k : nat) :
  forallb conforms items = true ->
  exists l,
    map_from Date_now k items = Returned l /\
    List.length l = List.length items /\
    map Annotation.id l = ids_from Date_now k (List.length items) /\
    forall i item, nth_error items i = Some item ->
      exists props,
        item = VObj props /\
        nth_error l i =
          Some (Annotation.mk (auto_id (Date_now (k + i)) (k + i))
                              (own_prop (lit "x") props)
                              (own_prop (lit "y") props)
                              (own_prop (lit "label") props)).
Proof.
  revert k; induction items as [|item rest IH]; intros k H.
  - exists []; repeat split; auto. intros [|i] item E; discriminate.
  - simpl in H. apply andb_true_iff in H as [Hc Hr].
    destruct item as [| | | | | |props]; try discriminate.
    destruct (IH (S k) Hr) as (l & El & Hlen & Hids & Hnth).
    cbn [map_from]. unfold to_annotation; cbn [field]. rewrite El.
    eexists; split; [reflexivity|]. repeat split.
    + simpl; now rewrite Hlen.
    + unfold ids_from in *; simpl; now rewrite Hids.
    + intros [|i] it E; simpl in E.
      * injection E as <-. exists props. now rewrite Nat.add_0_r.
      * destruct (Hnth i it E) as (p & -> & En). exists p; split; auto.
        simpl. rewrite En. now rewrite Nat.add_succ_r.
Qed.

Lemma ids_from_NoDup (k n : nat) : NoDup (ids_from Date_now k n).
Proof.
  unfold ids_from.
  apply Finite.Injective_map_NoDup_in; [|apply seq_NoDup].
  intros i j _ _ E. exact (auto_id_index _ _ _ _ E).
Qed.

Lemma detectUVParts_of_try (o : Outcome) :
  detectUVParts JSON_parse Date_now o =
    match detect_try JSON_parse Date_now o with
    | Returned l => Returned l
    | Threw _ => Returned []
    end.
Proof. reflexivity. Qed.

Lemma detect_failure_empty (o : Outcome) :
  Failure JSON_parse o -> detectUVParts JSON_parse Date_now o = Returned [].
Proof.
  intros F; rewrite detectUVParts_of_try.
  destruct F as [m | r Ht | r Ht | r t m Ht Hp | r t v Ht Hp Ha
                | r t items Ht Hp Hn | r t Ht Hp];
    simpl; try rewrite Ht; try reflexivity.
  - destruct (str_truthy t); [|reflexivity]. now rewrite Hp.
  - destruct (str_truthy t); [|reflexivity]. rewrite Hp.
    destruct v; try reflexivity; discriminate.
  - destruct (str_truthy t); [|reflexivity]. rewrite Hp.
    destruct (map_from_nullish items 0 Hn) as [m ->]. reflexivity.
  - destruct (str_truthy t); [|reflexivity]. now rewrite Hp.
Qed.

(** C5: whatever the service and the parser do, [detectUVParts] returns
    and does not raise; on each failure (the call raises, the text is
    absent or empty, the text does not parse, the parsed value is not an
    array, the mapping raises on a [null] item, the array is empty) it
    returns the empty list; on a response whose text parses to an array
    of schema records it returns one annotation per record, in order,
    with that record's [label], [x] and [y] and the id
    [auto-<clock>-<index>], and the ids are pairwise distinct. *)
Theorem detect_never_raises (o : Outcome) :
  (exists l, detectUVParts JSON_parse Date_now o = Returned l) /\
  (Failure JSON_parse o -> detectUVParts JSON_parse Date_now o = Returned []) /\
  (forall r t items,
      o = Resolves r -> text r = Some t -> str_truthy t = true ->
      JSON_parse t = Returned (VArr items) ->
      forallb conforms items = true ->
      exists l,
        detectUVParts JSON_parse Date_now o = Returned l /\
        List.length l = List.length items /\
        NoDup (map Annotation.id l) /\
        forall i item, nth_error items i = Some item ->
          exists props,
            item = VObj props /\
            nth_error l i =
              Some (Annotation.mk (auto_id (Date_now i) i)
                                  (own_prop (lit "x") props)
                                  (own_prop (lit "y") props)
                                  (own_prop (lit "label") props))).
Proof.
  split; [|split].
  - rewrite detectUVParts_of_try.
    destruct (detect_try JSON_parse Date_now o); eauto.
  - apply detect_failure_empty.
  - intros r t items -> Ht Hne Hp Hc.
    destruct (map_from_records items 0 Hc) as (l & El & Hlen & Hids & Hnth).
    exists l. rewrite detectUVParts_of_try; simpl.
    rewrite Ht, Hne, Hp, El. repeat split; auto.
    rewrite Hids. apply ids_from_NoDup.
Qed.

End DetectFacts.

Section DetectWitness.
Import Gemini.

Lemma detect_never_raises_witness :
  detectUVParts SampleDetect.parse Sample.clock (Rejects Sample.quota_exceeded)
    = Returned [] /\
  detectUVParts SampleDetect.parse Sample.clock (SampleDetect.answer (lit "oops"))
    = Returned [] /\
  exists l,
    detectUVParts SampleDetect.parse Sample.clock
                  (SampleDetect.answer SampleDetect.body) = Returned l /\
    List.length l = 2.
Proof.
  split; [|split].
  - apply (detect_never_raises SampleDetect.parse Sample.clock). constructor.
  - apply (detect_never_raises SampleDetect.parse Sample.clock).
    apply DetectSpec.ParseFails with (t := lit "oops") (m := lit "SyntaxError");
      reflexivity.
  - destruct (detect_never_raises SampleDetect.parse Sample.clock
                (SampleDetect.answer SampleDetect.body)) as (_ & _ & H).
    destruct (H _ SampleDetect.body SampleDetect.two_parts eq_refl eq_refl
                eq_refl eq_refl eq_refl) as (l & E & Hlen & _).
    exists l; split; [exact E | exact Hlen].
Defined.

End DetectWitness.

(* ================================================================== *)
(** ** Numbers: rounding never invents a NaN, and the clamp            *)
(* ================================================================== *)

Section RoundingFacts.












End RoundingFacts.

Section ClampFacts.
Import CanvasEditor CanvasSpec.










(** The hypothesis on the extent is needed: in a container of width 0 a
    pointer on its left edge has no percentage, and the clamp keeps the
    NaN. *)
Example clamp_zero_extent :
  clamp (percent num_100 num_100 num_0) = S754_nan.
Proof. reflexivity. Qed.

End ClampFacts.

(* ================================================================== *)
(** ** Numbers: a pointer before the origin                            *)
(* ================================================================== *)

Section SignFacts.
Import CanvasEditor CanvasSpec NumberSpec.











End SignFacts.

(* ================================================================== *)
(** ** Numbers: a pointer at or beyond the far edge                    *)
(* ================================================================== *)

Section Truncation.
Import NumberSpec.
Local Open Scope Z_scope.





End Truncation.

Section Lower.
Import NumberSpec.
Local Open Scope Z_scope.







End Lower.

Section Rounding.
Import NumberSpec.
Local Open Scope Z_scope.









End Rounding.

Section Order.
Import NumberSpec.
Local Open Scope Z_scope.


End Order.

Section Beyond.
Import CanvasEditor NumberSpec.
Local Open Scope Z_scope.




End Beyond.

Section Quotient.
Import NumberSpec.
Local Open Scope Z_scope.



End Quotient.

Section Division.
Import NumberSpec.
Local Open Scope Z_scope.



End Division.

Section Difference.
Import NumberSpec.
Local Open Scope Z_scope.






End Difference.

Section FarEdge.
Import CanvasEditor CanvasSpec NumberSpec.
Local Open Scope Z_scope.


End FarEdge.

Section NearEdge.
Import CanvasEditor CanvasSpec NumberSpec.
Local Open Scope Z_scope.



End NearEdge.

(* ================================================================== *)
(** ** The canvas editor                                               *)
(* ================================================================== *)


Section IdFacts.

Lemma digits_range (u : Decimal.uint) (c : N) :
  In c (digits u) -> (48 <= c <= 57)%N.
Proof.
  induction u; simpl; intros H; try tauto;
    destruct H as [<-|H]; auto; lia.
Qed.

Lemma int_toString_inj (t t' : Z) : int_toString t = int_toString t' -> t = t'.
Proof.
  assert (D : forall n p, N_toString n <> 45%N :: N_toString (Npos p)).
  { intros n p E. unfold N_toString at 1 in E.
    assert (H : In 45%N (digits (N.to_uint n))) by (rewrite E; left; reflexivity).
    apply digits_range in H; lia. }
  assert (I : forall n n', N_toString n = N_toString n' -> n = n').
  { intros n n' E. now apply digits_inj, DecimalN.Unsigned.to_uint_inj in E. }
  destruct t as [|p|p], t' as [|q|q]; simpl; intros E; auto;
    try (apply I in E; congruence);
    try (exfalso; exact (D _ _ E));
    try (exfalso; symmetry in E; exact (D _ _ E)).
  injection E as E. apply I in E. congruence.
Qed.

Lemma int_toString_not_auto (z t : Z) (i : nat) :
  int_toString z <> Gemini.auto_id t i.
Proof.
  unfold Gemini.auto_id; simpl; intros E.
  destruct z as [|p|p]; simpl in E; try discriminate;
    unfold N_toString in E;
    match type of E with
    | digits ?u = _ =>
        assert (H : In 97%N (digits u)) by (rewrite E; left; reflexivity);
        apply digits_range in H; lia
    end.
Qed.

(** The id made at clock reading [now] is not the id of an annotation
    that came from a detection or from a commit at another reading. *)
Lemma manual_id_fresh (now : Z) (annotations : list Annotation.t) :
  Forall (CanvasSpec.made_before now) annotations ->
  ~ In (int_toString now) (map Annotation.id annotations).
Proof.
  induction 1 as [|a l Ha _ IH]; simpl; [tauto|].
  intros [E|E]; [|tauto].
  destruct Ha as [(t & i & Hid)|(t & Hne & Hid)]; rewrite Hid in E.
  - symmetry in E. exact (int_toString_not_auto _ _ _ E).
  - apply int_toString_inj in E. congruence.
Qed.

End IdFacts.

Section PendingAnnotation.
Import CanvasEditor CanvasSpec.

(** C8, as the claim puts it, fails: the id is the clock reading, which
    is new only if no earlier commit read the same value. After one
    commit at reading 1700000000001, a second placement committed at the
    same reading gets the id the first one has, and the list holds two
    annotations with one id. *)
Lemma commit_fresh_id_counterexample :
  addAnnotation 1700000000001 [] SampleCanvas.placing
    = ([SampleCanvas.committed], mkState [] None None) /\
  pendingClick SampleCanvas.placing <> None /\
  forallb is_space (tempLabel SampleCanvas.placing) = false /\
  In (Annotation.id
        (last (fst (addAnnotation 1700000000001 [SampleCanvas.committed]
                                  SampleCanvas.placing))
              Sample.face))
     (map Annotation.id [SampleCanvas.committed]) /\
  ~ NoDup (map Annotation.id
             (fst (addAnnotation 1700000000001 [SampleCanvas.committed]
                                 SampleCanvas.placing))).
Proof.
  split; [reflexivity|]. split; [discriminate|]. split; [reflexivity|].
  split; [left; reflexivity|].
  intros N. inversion N as [|x l Hx _]. apply Hx. left; reflexivity.
Qed.

(** C8 (amended): with a pending position [(px, py)], committing a label
    that is empty or made of white space only changes nothing: no
    annotation is created and the component's state stays as it is.
    Committing any other label appends exactly one annotation, with the
    pending coordinates, the trimmed (non-empty) label and the decimal
    clock reading as id, and clears the pending position and the typed
    label. That id differs from the id of every annotation already in
    the list that came from a detection or from a commit at another
    clock reading; when the list already holds an annotation with that
    reading as id, the list after the commit holds the id twice. *)
Theorem commit_pending (now : Z) (annotations : list Annotation.t)
        (st : State) (px py : number) :
  pendingClick st = Some (px, py) ->
  (forallb is_space (tempLabel st) = true ->
     addAnnotation now annotations st = (annotations, st)) /\
  (forallb is_space (tempLabel st) = false ->
     addAnnotation now annotations st =
       (annotations ++
          [Annotation.mk (int_toString now) (VNum px) (VNum py)
                         (VStr (trim (tempLabel st)))],
        mkState [] None (draggingId st)) /\
     trim (tempLabel st) <> [] /\
     (Forall (made_before now) annotations ->
      ~ In (int_toString now) (map Annotation.id annotations)) /\
     (In (int_toString now) (map Annotation.id annotations) ->
      ~ NoDup (map Annotation.id (fst (addAnnotation now annotations st))))).
Proof.
  intros Hp; unfold addAnnotation; rewrite Hp. split.
  - intros Hb. apply trim_blank_iff in Hb. now rewrite Hb.
  - intros Hi. pose proof (trim_ink _ Hi) as Ht. rewrite Ht.
    repeat split.
    + now apply str_truthy_nonempty.
    + apply manual_id_fresh.
    + intros Hin N. cbn [fst] in N. rewrite map_app in N.
      apply NoDup_remove_2 in N. rewrite app_nil_r in N. exact (N Hin).
Qed.

Lemma commit_pending_witness :
  addAnnotation 1700000000002 [Sample.face; Sample.torso] SampleCanvas.placing
    = ([Sample.face; Sample.torso;
        Annotation.mk (lit "1700000000002") (VNum Sample.n25)
                      (VNum Sample.n50) (VStr (lit "Face"))],
       mkState [] None None) /\
  ~ In (lit "1700000000002")
       (map Annotation.id [Sample.face; Sample.torso]).
Proof.
  destruct (commit_pending 1700000000002 [Sample.face; Sample.torso]
              SampleCanvas.placing Sample.n25 Sample.n50 eq_refl)
    as [_ H].
  destruct (H eq_refl) as (E & _ & F & _). split; [exact E|].
  apply F. apply Forall_cons; [|apply Forall_cons; [|apply Forall_nil]].
  - left. exists 1700000000000%Z, 0%nat. reflexivity.
  - right. exists 1700000000001%Z. split; [discriminate|reflexivity].
Defined.

End PendingAnnotation.

Section Drag.
Import CanvasEditor CanvasSpec NumberSpec.






End Drag.

Section CanvasLifecycle.
Import CanvasEditor CanvasSpec.

(** Starting a drag discards a pending placement and marks the pin. *)
Lemma startDrag_clears_pending (id : jsstring) (st : State) :
  pendingClick (startDrag id st) = None /\
  draggingId (startDrag id st) = Some id /\
  tempLabel (startDrag id st) = tempLabel st.
Proof. repeat split. Qed.

(** While a drag is active a click on the surface places nothing. *)
Lemma handleImageClick_while_dragging (imageSrc : option jsstring)
      (container : option Rect) (clientX clientY : number) (st : State) :
  opt_truthy (draggingId st) = true ->
  handleImageClick imageSrc container clientX clientY st = st.
Proof. intros H; unfold handleImageClick; now rewrite H. Qed.

(** Releasing the pointer ends the drag and moves nothing. *)
Lemma handlePointerUp_ends_drag (st : State) :
  draggingId (handlePointerUp st) = None \/
  (handlePointerUp st = st /\ opt_truthy (draggingId st) = false).
Proof.
  unfold handlePointerUp. destruct (opt_truthy (draggingId st)); auto.
Qed.

(** No annotation with the removed id is left, and the others stay. *)
Lemma removeAnnotation_spec (id : jsstring) (annotations : list Annotation.t) :
  ~ In id (map Annotation.id (removeAnnotation id annotations)) /\
  forall a, In a annotations -> Annotation.id a <> id ->
            In a (removeAnnotation id annotations).
Proof.
  unfold removeAnnotation; split.
  - rewrite in_map_iff. intros (a & E & H).
    apply filter_In in H as [_ H]. rewrite E, str_eqb_refl in H. discriminate.
  - intros a H N. apply filter_In; split; auto.
    destruct (str_eqb (Annotation.id a) id) eqn:E; auto.
    apply str_eqb_eq in E; contradiction.
Qed.

Lemma move_to_twice (dragged : jsstring) (vx vy : number) (ann : Annotation.t) :
  move_to dragged vx vy (move_to dragged vx vy ann) = move_to dragged vx vy ann.
Proof.
  unfold move_to at 2.
  destruct (str_eqb (Annotation.id ann) dragged) eqn:E.
  - unfold move_to; simpl; now rewrite E.
  - unfold move_to; now rewrite E.
Qed.

(** Two pointer events at the same position leave what one leaves. *)
Lemma handlePointerMove_idempotent (st : State) (container : option Rect)
      (clientX clientY : number) (prev : list Annotation.t) :
  handlePointerMove st container clientX clientY
    (handlePointerMove st container clientX clientY prev)
  = handlePointerMove st container clientX clientY prev.
Proof.
  unfold handlePointerMove.
  destruct (draggingId st) as [d|]; auto.
  destruct container as [rect|]; auto.
  destruct (str_truthy d); auto.
  rewrite map_map. apply map_ext. intros a; apply move_to_twice.
Qed.

End CanvasLifecycle.

(* ================================================================== *)
(** ** More on the service functions                                   *)
(* ================================================================== *)

Section ImageResults.
Import Gemini ResponseSpec.


(** The loop stops at the first part that carries an image. *)
Lemma first_inline_some (ps : list Part) (d : jsstring) :
  first_inline ps = Some d <->
  exists before p after,
    ps = before ++ p :: after /\ no_image before = true /\
    has_image p = true /\ image_of p = d.
Proof.
  unfold no_image; induction ps as [|p rest IH]; simpl.
  - split; [discriminate|]. intros (b & q & a & E & _).
    destruct b; discriminate.
  - assert (Skip : has_image p = false ->
              (first_inline rest = Some d <->
               exists before q after,
                 p :: rest = before ++ q :: after /\
                 forallb (fun x => negb (has_image x)) before = true /\
                 has_image q = true /\ image_of q = d)).
    { intros Hp. rewrite IH. split.
      - intros (b & q & a & E & Hb & Hq & Hd).
        exists (p :: b), q, a. simpl. rewrite Hp, E. auto.
      - intros (b & q & a & E & Hb & Hq & Hd).
        destruct b as [|x b]; simpl in *.
        + injection E as -> _. congruence.
        + injection E as -> E. apply andb_true_iff in Hb as [_ Hb].
          exists b, q, a. auto. }
    unfold has_image in Skip at 1.
    destruct (inlineData p) as [[[e|]]|] eqn:Ei; auto.
    destruct (str_truthy e) eqn:Et; auto.
    split.
    + intros E; injection E as <-.
      exists [], p, rest. unfold has_image, image_of. rewrite Ei. auto.
    + intros (b & q & a & E & Hb & Hq & Hd).
      destruct b as [|x b]; simpl in *.
      * injection E as -> _. unfold image_of in Hd. rewrite Ei in Hd. congruence.
      * injection E as -> _. unfold has_image in Hb. rewrite Ei, Et in Hb.
        discriminate.
Qed.

Lemma image_try_returns (none_msg fallback : jsstring) (o : Outcome) (s : jsstring) :
  rethrow fallback (image_try none_msg o) = Returned s <->
  exists r before p after,
    o = Resolves r /\ response_parts r = before ++ p :: after /\
    no_image before = true /\ has_image p = true /\
    s = data_uri (image_of p).
Proof.
  unfold image_try; destruct o as [m|r]; simpl.
  - split; [discriminate|]. intros (r & b & p & a & E & _). discriminate.
  - destruct (first_inline (response_parts r)) as [d|] eqn:F; simpl.
    + apply first_inline_some in F as (b & p & a & E & Hb & Hp & Hd). split.
      * intros G; injection G as <-. exists r, b, p, a. subst d. auto.
      * intros (r' & b' & p' & a' & Er & E' & Hb' & Hp' & ->).
        injection Er as <-.
        assert (G : first_inline (response_parts r) = Some (image_of p'))
          by (apply first_inline_some; exists b', p', a'; auto).
        assert (G' : first_inline (response_parts r) = Some d)
          by (apply first_inline_some; exists b, p, a; auto).
        congruence.
    + split; [discriminate|].
      intros (r' & b & p & a & Er & E & Hb & Hp & _). injection Er as <-.
      assert (G : first_inline (response_parts r) = Some (image_of p))
        by (apply first_inline_some; exists b, p, a; auto).
      congruence.
Qed.

(** X1: [generateTexture] and [editTexture] return exactly when the
    service resolves with a response one of whose parts carries a
    non-empty inline payload; the value is the PNG data URI of the first
    such part, whatever comes after it. *)
Theorem image_result_is_first_payload (o : Outcome) (s : jsstring) :
  (generateTexture o = Returned s <->
   exists r before p after,
     o = Resolves r /\ response_parts r = before ++ p :: after /\
     no_image before = true /\ has_image p = true /\
     s = data_uri (image_of p)) /\
  (editTexture o = Returned s <->
   exists r before p after,
     o = Resolves r /\ response_parts r = before ++ p :: after /\
     no_image before = true /\ has_image p = true /\
     s = data_uri (image_of p)).
Proof. split; apply image_try_returns. Qed.

End ImageResults.

Section ImageResultsWitness.
Import Gemini.

Lemma image_result_is_first_payload_witness :
  generateTexture SampleExtra.two_images = Returned Sample.result_R /\
  editTexture SampleExtra.two_images = Returned Sample.result_R.
Proof.
  destruct (image_result_is_first_payload SampleExtra.two_images Sample.result_R)
    as [[_ G] [_ E]].
  split; [apply G | apply E];
    eexists _, [SampleExtra.image_part []], (SampleExtra.image_part (lit "UkVT")), _;
    repeat split.
Defined.

End ImageResultsWitness.

Section DataUri.
Import Gemini App.

Lemma upto_comma_no_comma (d : jsstring) : ~ In 44%N d -> upto_comma d = d.
Proof.
  induction d as [|c r IH]; simpl; auto. intros H.
  destruct (N.eqb_spec c 44) as [->|_]; [exfalso; auto|].
  f_equal; auto.
Qed.

(** [(prefix + d).split(',')[1]] for the prefix of the data URI. *)
Lemma split_data_uri (d : jsstring) : split_comma_1 (data_uri d) = Some (upto_comma d).
Proof. reflexivity. Qed.

Lemma data_uri_truthy (d : jsstring) : str_truthy (data_uri d) = true.
Proof. reflexivity. Qed.

(** X3: what the service returned comes back to it. After a generation
    that succeeded with the inline payload [d], an edit with a
    non-blank instruction sends the part of [d] before its first comma,
    which is [d] itself when [d] has no comma (as base64 text has none). *)
Theorem edit_sends_generated_payload (st : State) (o : Outcome)
        (d instruction : jsstring) :
  opt_truthy (uvImage st) = true ->
  forallb is_space (stylePrompt st) = false ->
  generateTexture o = Returned (data_uri d) ->
  forallb is_space instruction = false ->
  snd (handleEdit (setEditPrompt instruction (generate o st)))
    = Some (EditRequest (Some (upto_comma d)) instruction) /\
  (~ In 44%N d ->
   snd (handleEdit (setEditPrompt instruction (generate o st)))
     = Some (EditRequest (Some d) instruction)).
Proof.
  intros Hu Hs Hg Hi.
  apply trim_ink in Hs, Hi.
  destruct (handleGenerate_starts st Hu Hs) as (uv & _ & Hstart).
  assert (E : snd (handleEdit (setEditPrompt instruction (generate o st)))
              = Some (EditRequest (Some (upto_comma d)) instruction)).
  { unfold generate. rewrite Hstart, Hg. unfold handleEdit; simpl.
    rewrite Hi. reflexivity. }
  split; [exact E|]. intros N. now rewrite E, upto_comma_no_comma.
Qed.

Lemma edit_sends_generated_payload_witness :
  snd (handleEdit (setEditPrompt Sample.instruction
                     (generate (SampleDetect.image_answer (lit "UkVT"))
                               Sample.with_result)))
    = Some (EditRequest (Some (lit "UkVT")) Sample.instruction).
Proof.
  apply (edit_sends_generated_payload Sample.with_result
           (SampleDetect.image_answer (lit "UkVT")) (lit "UkVT") Sample.instruction);
    try reflexivity.
  intros H; simpl in H.
  repeat (destruct H as [H|H]; [discriminate|]). exact H.
Defined.

End DataUri.

(* ================================================================== *)
(** ** More on detection                                               *)
(* ================================================================== *)

Section LooseItems.
Import Gemini DetectSpec ResponseSpec.
Variable JSON_parse : jsstring -> Result JsValue.
Variable Date_now : nat -> Z.

Lemma to_annotation_loose (item : JsValue) (i : nat) :
  nullish item = false ->
  to_annotation Date_now item i =
    Returned (Annotation.mk (auto_id (Date_now i) i)
                            (field_or_undefined (lit "x") item)
                            (field_or_undefined (lit "y") item)
                            (field_or_undefined (lit "label") item)).
Proof. destruct item; simpl; intros H; try discriminate; reflexivity. Qed.

Lemma map_from_loose (items : list JsValue) (k : nat) :
  existsb nullish items = false ->
  exists l,
    map_from Date_now k items = Returned l /\
    List.length l = List.length items /\
    forall i item, nth_error items i = Some item ->
      nth_error l i =
        Some (Annotation.mk (auto_id (Date_now (k + i)) (k + i))
                            (field_or_undefined (lit "x") item)
                            (field_or_undefined (lit "y") item)
                            (field_or_undefined (lit "label") item)).
Proof.
  revert k; induction items as [|item rest IH]; intros k H.
  - exists []; repeat split. intros [|i] item E; discriminate.
  - simpl in H. apply orb_false_iff in H as [Hn Hr].
    destruct (IH (S k) Hr) as (l & El & Hlen & Hnth).
    cbn [map_from]. rewrite (to_annotation_loose item k Hn), El.
    eexists; split; [reflexivity|]. split; [simpl; now rewrite Hlen|].
    intros [|i] it E; simpl in E.
    + injection E as <-. simpl. now rewrite Nat.add_0_r.
    + simpl. rewrite (Hnth i it E). now rewrite Nat.add_succ_r.
Qed.

(** X4: a response that breaks the schema is not always dropped. When
    the text parses to an array none of whose items is [null],
    [detectUVParts] returns one annotation per item, whatever the items
    are: a field the item lacks, and every field of an item that is not
    an object, comes out [undefined]. *)
Theorem detect_keeps_loose_items (r : Response) (t : jsstring)
        (items : list JsValue) :
  text r = Some t -> str_truthy t = true ->
  JSON_parse t = Returned (VArr items) ->
  existsb nullish items = false ->
  exists l,
    detectUVParts JSON_parse Date_now (Resolves r) = Returned l /\
    List.length l = List.length items /\
    forall i item, nth_error items i = Some item ->
      nth_error l i =
        Some (Annotation.mk (auto_id (Date_now i) i)
                            (field_or_undefined (lit "x") item)
                            (field_or_undefined (lit "y") item)
                            (field_or_undefined (lit "label") item)).
Proof.
  intros Ht Hne Hp Hn.
  destruct (map_from_loose items 0 Hn) as (l & El & Hlen & Hnth).
  exists l. unfold detectUVParts, detect_try. rewrite Ht, Hne, Hp, El. auto.
Qed.

End LooseItems.

Section LooseItemsWitness.
Import Gemini.

Lemma detect_keeps_loose_items_witness :
  exists l,
    detectUVParts SampleExtra.loose_parse Sample.clock
                  (SampleDetect.answer SampleExtra.loose_body) = Returned l /\
    nth_error l 0 = Some SampleExtra.unlabeled.
Proof.
  destruct (detect_keeps_loose_items SampleExtra.loose_parse Sample.clock
              {| text := Some SampleExtra.loose_body; candidates := None |}
              SampleExtra.loose_body SampleExtra.loose_items
              eq_refl eq_refl eq_refl eq_refl) as (l & E & _ & H).
  exists l. split; [exact E|]. exact (H 0%nat (VObj []) eq_refl).
Defined.

End LooseItemsWitness.

Section DetectedIds.
Import Gemini.

Lemma auto_id_inj (t t' : Z) (i j : nat) :
  auto_id t i = auto_id t' j -> t = t' /\ i = j.
Proof.
  intros E. pose proof (auto_id_index _ _ _ _ E) as ->.
  split; [|reflexivity].
  unfold auto_id in E. apply app_inv_head in E.
  rewrite !app_assoc in E. apply app_inv_tail in E. apply app_inv_tail in E.
  now apply int_toString_inj.
Qed.

(** X5: the id [auto-<clock>-<index>] of a detected annotation determines
    the clock reading and the index it was made from, is not empty, and
    is never the id [addAnnotation] makes from a clock reading. *)
Theorem detected_id_facts (t : Z) (i : nat) :
  (forall t' j, auto_id t i = auto_id t' j -> t = t' /\ i = j) /\
  str_truthy (auto_id t i) = true /\
  (forall now, auto_id t i <> int_toString now).
Proof.
  split; [intros t' j; apply auto_id_inj|]. split; [reflexivity|].
  intros now E. symmetry in E. exact (int_toString_not_auto _ _ _ E).
Qed.

Lemma detected_id_facts_witness :
  Annotation.id Sample.face <> Annotation.id Sample.torso.
Proof.
  destruct (detected_id_facts 1700000000000 0) as (_ & _ & H).
  exact (H 1700000000001%Z).
Defined.

End DetectedIds.

(* ================================================================== *)
(** ** The instruction [generateTexture] assembles                     *)
(* ================================================================== *)

Section Includes.
Import GeminiPrompt PromptSpec.






End Includes.

Section Describe.
Import GeminiPrompt PromptSpec.
Variable round_text : JsValue -> jsstring.
Variable other_text : JsValue -> jsstring.
Variable toLowerCase : jsstring -> jsstring.
Variable type_error_message : JsValue -> jsstring.






End Describe.

Section Instruction.
Import GeminiPrompt PromptSpec App.
Variable round_text : JsValue -> jsstring.
Variable other_text : JsValue -> jsstring.
Variable toLowerCase : jsstring -> jsstring.
Variable type_error_message : JsValue -> jsstring.




End Instruction.

Section InstructionWitness.
Import GeminiPrompt App.



End InstructionWitness.

(* ================================================================== *)
(** ** More on the coordinator                                         *)
(* ================================================================== *)

Section Success.
Import App.

(** X8: a generation that passes the guards and succeeds with the image
    [s] leaves [{isLoading: false, resultImage: s, error: null}], so it
    also clears an earlier error; nothing else of the state changes. *)
Theorem generate_success_state (st : State) (o : Gemini.Outcome) (s : jsstring) :
  opt_truthy (uvImage st) = true ->
  forallb is_space (stylePrompt st) = false ->
  Gemini.generateTexture o = Returned s ->
  genState (generate o st) = mkGen false (Some s) None /\
  uvImage (generate o st) = uvImage st /\
  annotations (generate o st) = annotations st /\
  stylePrompt (generate o st) = stylePrompt st /\
  editPrompt (generate o st) = editPrompt st /\
  isDetecting (generate o st) = isDetecting st.
Proof.
  intros Hu Hs Hg. apply trim_ink in Hs.
  destruct (handleGenerate_starts st Hu Hs) as (uv & _ & Hstart).
  unfold generate; rewrite Hstart, Hg. repeat split.
Qed.

Lemma generate_success_state_witness :
  genState (generate (SampleDetect.image_answer (lit "T1RIRVI="))
                     Sample.with_result)
    = mkGen false (Some (Gemini.data_uri (lit "T1RIRVI="))) None.
Proof.
  apply (generate_success_state Sample.with_result
           (SampleDetect.image_answer (lit "T1RIRVI="))
           (Gemini.data_uri (lit "T1RIRVI=")));
    reflexivity.
Defined.

(** X9: an edit that passes the guards and succeeds with the image [s]
    replaces the result by [s], clears [error] and [isLoading], and
    empties the edit instruction; the source image, the annotations and
    the style text stay. *)
Theorem edit_success_state (st : State) (R : jsstring) (o : Gemini.Outcome)
        (s : jsstring) :
  resultImage (genState st) = Some R ->
  str_truthy R = true ->
  forallb is_space (editPrompt st) = false ->
  Gemini.editTexture o = Returned s ->
  genState (edit o st) = mkGen false (Some s) None /\
  editPrompt (edit o st) = [] /\
  uvImage (edit o st) = uvImage st /\
  annotations (edit o st) = annotations st /\
  stylePrompt (edit o st) = stylePrompt st /\
  isDetecting (edit o st) = isDetecting st.
Proof.
  intros HR Ht Hp He. apply trim_ink in Hp.
  unfold edit; rewrite (handleEdit_starts st R HR Ht Hp), He. repeat split.
Qed.

Lemma edit_success_state_witness :
  genState (edit (SampleDetect.image_answer (lit "T1RIRVI=")) Sample.with_result)
    = mkGen false (Some (Gemini.data_uri (lit "T1RIRVI="))) None /\
  editPrompt (edit (SampleDetect.image_answer (lit "T1RIRVI=")) Sample.with_result)
    = [].
Proof.
  destruct (edit_success_state Sample.with_result Sample.result_R
              (SampleDetect.image_answer (lit "T1RIRVI="))
              (Gemini.data_uri (lit "T1RIRVI="))
              eq_refl eq_refl eq_refl eq_refl) as (H1 & H2 & _).
  exact (conj H1 H2).
Defined.

End Success.

Section Requests.
Import App.

Lemma blank_false_of_trim (s : jsstring) :
  str_truthy (trim s) = true -> forallb is_space s = false.
Proof.
  intros H. destruct (forallb is_space s) eqn:E; auto.
  apply trim_blank_iff in E. congruence.
Qed.

End Requests.

Section SessionWorld.
Import App.

(** The session of [SampleDetect.session], event by event: the result is
    on display and nothing is in flight. *)
Lemma with_result_reachable :
  reachable SampleDetect.parse (mkWorld Sample.with_result []).
Proof.
  pose proof (reachable_initial SampleDetect.parse) as R.
  pose proof (reachable_step _ _ _ R
                (step_event _ (FileChosen (Some Sample.image_I)) _)) as R1.
  pose proof (fun E => reachable_step _ _ _ R1
                (step_detect_settles _ Sample.clock
                   (SampleDetect.answer SampleDetect.face_body) _ [] [] E))
    as R2.
  specialize (R2 eq_refl).
  pose proof (reachable_step _ _ _ R2
                (step_event _ (StyleTyped Sample.style) _)) as R3.
  pose proof (reachable_step _ _ _ R3 (step_event _ GenerateClicked _)) as R4.
  pose proof (fun E => reachable_step _ _ _ R4
                (step_generate_settles _ (SampleDetect.image_answer (lit "UkVT")) _
                   [] [] E)) as R5.
  specialize (R5 eq_refl).
  pose proof (reachable_step _ _ _ R5
                (step_event _ (EditTyped Sample.instruction) _)) as R6.
  exact R6.
Qed.

End SessionWorld.

Section Presentable.
Import App CoordinatorSpec.
Variable JSON_parse : jsstring -> Result JsValue.

Lemma returned_is_data_uri (none_msg fallback : jsstring) (o : Gemini.Outcome)
      (s : jsstring) :
  Gemini.rethrow fallback (Gemini.image_try none_msg o) = Returned s ->
  exists d, str_truthy d = true /\ s = Gemini.data_uri d.
Proof.
  intros H. apply image_try_returns in H as (r & b & p & a & _ & _ & _ & Hp & ->).
  exists (ResponseSpec.image_of p). split; [|reflexivity].
  unfold ResponseSpec.has_image, ResponseSpec.image_of in *.
  destruct (Gemini.inlineData p) as [[[d|]]|]; try discriminate. exact Hp.
Qed.

Lemma thrown_is_text (none_msg fallback : jsstring) (o : Gemini.Outcome)
      (m other : jsstring) :
  str_truthy fallback = true ->
  Gemini.rethrow fallback (Gemini.image_try none_msg o) = Threw m ->
  str_truthy (str_or m other) = true.
Proof.
  intros Hf H. apply rethrow_message in H; auto.
  now rewrite str_or_of_truthy.
Qed.

Lemma dispatch_presentable (ev : Event) (st : State) :
  presentable (genState st) -> presentable (genState (fst (dispatch ev st))).
Proof.
  intros [Hr He].
  assert (Clear : forall b, presentable (mkGen b None None))
    by (split; left; reflexivity).
  assert (Keep : forall b, presentable (mkGen b (resultImage (genState st)) None))
    by (split; [exact Hr | left; reflexivity]).
  destruct ev as [[b|]| | | |s|s]; unfold dispatch;
    try (split; assumption).
  - destruct (file_input_disabled st); [split; assumption|apply Clear].
  - destruct (file_input_disabled st); split; assumption.
  - destruct (generate_button_disabled st); [split; assumption|].
    destruct (handleGenerate_cases st) as [-> | [-> | (d & ->)]]; simpl.
    + split; assumption.
    + split; [exact Hr|]. right. exists msg_style_required. split; reflexivity.
    + apply Clear.
  - destruct (negb (edit_section_rendered st) || edit_button_disabled st);
      [split; assumption|].
    destruct (handleEdit_cases st) as [-> | (d & ->)]; simpl;
      [split; assumption | apply Keep].
  - destruct (negb (edit_section_rendered st)); [split; assumption|].
    destruct (handleEdit_cases st) as [-> | (d & ->)]; simpl;
      [split; assumption | apply Keep].
Qed.

(** X11: in every state the page can reach, with calls in flight or
    not, a result on display is the PNG data URI of a non-empty payload
    and an error on display is a non-empty text; so the result and the
    edit section are shown exactly when [resultImage] is not null, and
    the error box exactly when [error] is not null. *)
Theorem reachable_presentable (w : World) :
  reachable JSON_parse w ->
  presentable (genState (app w)) /\
  (edit_section_rendered (app w) = true <-> resultImage (genState (app w)) <> None) /\
  (opt_truthy (error (genState (app w))) = true <-> error (genState (app w)) <> None).
Proof.
  intros R.
  assert (P : presentable (genState (app w))).
  { induction R as [|w w' _ IH S]; [split; left; reflexivity|].
    destruct S as [ev w|l w|clock o w before after E|o w before after E
                  |o w before after E]; cbn [app].
    - now apply dispatch_presentable.
    - exact IH.
    - now rewrite handleFileUpload_settled_genState.
    - unfold handleGenerate_settled.
      destruct (Gemini.generateTexture o) as [s|m] eqn:G; simpl.
      + apply returned_is_data_uri in G as (d & Hd & ->).
        split; [right; eauto | left; reflexivity].
      + split; [left; reflexivity|]. right. eexists; split; [|reflexivity].
        eapply thrown_is_text; [|exact G]. reflexivity.
    - unfold handleEdit_settled.
      destruct (Gemini.editTexture o) as [s|m] eqn:G; simpl.
      + apply returned_is_data_uri in G as (d & Hd & ->).
        split; [right; eauto | left; reflexivity].
      + split; [exact (proj1 IH)|]. right. eexists; split; [|reflexivity].
        eapply thrown_is_text; [|exact G]. reflexivity. }
  split; [exact P|]. destruct P as [Pr Pe]. unfold edit_section_rendered. split.
  - destruct Pr as [->|(d & Hd & ->)]; simpl; split; congruence.
  - destruct Pe as [->|(m & Hm & ->)]; simpl; [split; congruence|].
    rewrite Hm. split; congruence.
Qed.


(** X13: a failed detection is silent. When the service or the parser
    fails in one of the ways of [DetectSpec.Failure], the settlement of
    the upload only switches [isDetecting] off: the annotations (also
    those placed while the detection ran), the generation state with its
    [error], the image and the two texts are as before. *)
Theorem detection_failure_is_silent (Date_now : nat -> Z) (o : Gemini.Outcome)
        (st : State) :
  DetectSpec.Failure JSON_parse o ->
  handleFileUpload_settled (Gemini.detectUVParts JSON_parse Date_now o) st
    = setIsDetecting false st.
Proof.
  intros F. now rewrite (detect_failure_empty JSON_parse Date_now o F).
Qed.

End Presentable.

Section SilentWitness.
Import App CoordinatorSpec.

Lemma reachable_presentable_witness :
  presentable (genState Sample.with_result) /\
  (edit_section_rendered Sample.with_result = true <->
   resultImage (genState Sample.with_result) <> None).
Proof.
  destruct (reachable_presentable SampleDetect.parse
              (mkWorld Sample.with_result []) with_result_reachable)
    as (P & E & _).
  exact (conj P E).
Defined.

Lemma detection_failure_is_silent_witness :
  handleFileUpload_settled
    (Gemini.detectUVParts SampleDetect.parse Sample.clock
                          (Gemini.Rejects Sample.quota_exceeded))
    Sample.with_result
  = Sample.with_result.
Proof.
  apply (detection_failure_is_silent SampleDetect.parse Sample.clock
           (Gemini.Rejects Sample.quota_exceeded) Sample.with_result).
  constructor.
Defined.

End SilentWitness.

(* ================================================================== *)
(** ** More on the canvas editor                                       *)
(* ================================================================== *)

Section Removal.
Import CanvasEditor SessionSpec.

Lemma removeAnnotation_absent (id : jsstring) (annotations : list Annotation.t) :
  ~ In id (ids annotations) -> removeAnnotation id annotations = annotations.
Proof.
  unfold removeAnnotation, ids; induction annotations as [|a l IH]; simpl; auto.
  intros H. destruct (str_eqb (Annotation.id a) id) eqn:E; simpl.
  - apply str_eqb_eq in E. tauto.
  - f_equal. tauto.
Qed.

Lemma removeAnnotation_length (id : jsstring) (annotations : list Annotation.t) :
  NoDup (ids annotations) -> In id (ids annotations) ->
  S (List.length (removeAnnotation id annotations)) = List.length annotations.
Proof.
  unfold ids; induction annotations as [|a l IH]; simpl; [tauto|].
  intros N H. inversion N as [|x xs Hx Nl]; subst.
  unfold removeAnnotation; simpl.
  destruct (str_eqb (Annotation.id a) id) eqn:E; simpl.
  - apply str_eqb_eq in E; subst id.
    fold (removeAnnotation (Annotation.id a) l).
    now rewrite removeAnnotation_absent.
  - fold (removeAnnotation id l). f_equal. apply IH; auto.
    destruct H as [H|H]; auto.
    subst id. rewrite str_eqb_refl in E. discriminate.
Qed.

(** X14: [removeAnnotation] takes out every annotation with the given id
    and nothing else, keeping the order of the rest; it changes nothing
    when no annotation has that id; and when the ids are pairwise
    distinct and the id is present, the list gets shorter by exactly
    one. *)
Theorem removeAnnotation_effect (id : jsstring) (annotations : list Annotation.t) :
  ~ In id (ids (removeAnnotation id annotations)) /\
  (forall a, In a (removeAnnotation id annotations) <->
             In a annotations /\ Annotation.id a <> id) /\
  removeAnnotation id annotations
    = filter (fun a => negb (str_eqb (Annotation.id a) id)) annotations /\
  (~ In id (ids annotations) -> removeAnnotation id annotations = annotations) /\
  (NoDup (ids annotations) -> In id (ids annotations) ->
   S (List.length (removeAnnotation id annotations)) = List.length annotations).
Proof.
  split; [apply removeAnnotation_spec|]. split; [|split; [reflexivity|split]].
  - intros a. unfold removeAnnotation. rewrite filter_In, negb_true_iff.
    split; intros [H E]; split; auto.
    + intros F. apply str_eqb_eq in F. congruence.
    + destruct (str_eqb (Annotation.id a) id) eqn:F; auto.
      apply str_eqb_eq in F. contradiction.
  - apply removeAnnotation_absent.
  - apply removeAnnotation_length.
Qed.

Lemma removeAnnotation_effect_witness :
  removeAnnotation (Annotation.id Sample.face) [Sample.face; Sample.torso]
    = [Sample.torso] /\
  removeAnnotation (lit "nobody") [Sample.face; Sample.torso]
    = [Sample.face; Sample.torso].
Proof.
  split.
  - reflexivity.
  - apply (removeAnnotation_effect (lit "nobody") [Sample.face; Sample.torso]).
    unfold ids; simpl. intros [H|[H|H]]; [discriminate | discriminate | exact H].
Defined.

End Removal.

Section DragFacts.
Import CanvasEditor SessionSpec.

Lemma move_to_id (dragged : jsstring) (vx vy : number) (ann : Annotation.t) :
  Annotation.id (move_to dragged vx vy ann) = Annotation.id ann /\
  Annotation.label (move_to dragged vx vy ann) = Annotation.label ann.
Proof.
  unfold move_to. destruct (str_eqb (Annotation.id ann) dragged); auto.
Qed.

Lemma handlePointerMove_ids (st : State) (container : option Rect)
      (clientX clientY : number) (prev : list Annotation.t) :
  ids (handlePointerMove st container clientX clientY prev) = ids prev.
Proof.
  unfold handlePointerMove, ids.
  destruct (draggingId st) as [d|]; auto.
  destruct container as [rect|]; auto.
  destruct (str_truthy d); auto.
  rewrite map_map. apply map_ext. intros a. apply move_to_id.
Qed.

(** X15: a pointer move never touches identities: the ids and the labels
    of the list are the same before and after, in the same order; the
    same pointer position twice leaves what it leaves once; and with no
    drag active (as after [handlePointerUp]) or no container it changes
    nothing at all. *)
Theorem handlePointerMove_keeps_identity (st : State) (container : option Rect)
        (clientX clientY : number) (prev : list Annotation.t) :
  let next := handlePointerMove st container clientX clientY prev in
  ids next = ids prev /\
  map Annotation.label next = map Annotation.label prev /\
  handlePointerMove st container clientX clientY next = next /\
  (opt_truthy (draggingId st) = false -> next = prev) /\
  (container = None -> next = prev) /\
  handlePointerMove (handlePointerUp st) container clientX clientY prev = prev.
Proof.
  cbv zeta. split; [apply handlePointerMove_ids|].
  split; [|split; [apply handlePointerMove_idempotent|split; [|split]]].
  - unfold handlePointerMove.
    destruct (draggingId st) as [d|]; auto.
    destruct container as [rect|]; auto.
    destruct (str_truthy d); auto.
    rewrite map_map. apply map_ext. intros a. apply move_to_id.
  - unfold handlePointerMove. destruct (draggingId st) as [d|]; simpl; auto.
    intros ->. destruct container; reflexivity.
  - intros ->. unfold handlePointerMove. destruct (draggingId st); reflexivity.
  - unfold handlePointerUp, handlePointerMove.
    destruct (draggingId st) as [d|] eqn:E; simpl; [|now rewrite E].
    destruct (str_truthy d) eqn:T; simpl; auto.
    rewrite E, T. destruct container; reflexivity.
Qed.

End DragFacts.

Section DragFactsWitness.
Import CanvasEditor SessionSpec.

Lemma handlePointerMove_keeps_identity_witness :
  ids (handlePointerMove SampleCanvas.dragging (Some SampleCanvas.rect)
                         Sample.n50 Sample.n150 [Sample.face; Sample.torso])
    = ids [Sample.face; Sample.torso] /\
  handlePointerMove SampleCanvas.placing (Some SampleCanvas.rect)
                    Sample.n50 Sample.n150 [Sample.face; Sample.torso]
    = [Sample.face; Sample.torso].
Proof.
  split.
  - apply (handlePointerMove_keeps_identity SampleCanvas.dragging
             (Some SampleCanvas.rect) Sample.n50 Sample.n150
             [Sample.face; Sample.torso]).
  - apply (handlePointerMove_keeps_identity SampleCanvas.placing
             (Some SampleCanvas.rect) Sample.n50 Sample.n150
             [Sample.face; Sample.torso]).
Defined.

End DragFactsWitness.

Section Sessions.
Import CanvasEditor CanvasSession SessionSpec.
Variable imageSrc : option jsstring.

Lemma act_exclusive (a : Action) (e : Editor) :
  exclusive (snd e) -> exclusive (snd (act imageSrc a e)).
Proof.
  destruct e as [anns st]; unfold exclusive; simpl; intros X.
  destruct a as [c cx cy|s|now| |id|c cx cy| |id| ]; simpl; auto.
  - unfold handleImageClick.
    destruct (opt_truthy (draggingId st)) eqn:D; simpl; auto.
    destruct (negb (opt_truthy imageSrc)); simpl; [congruence|].
    destruct c; simpl; congruence.
  - unfold addAnnotation. destruct (pendingClick st) as [[px py]|] eqn:P; simpl;
      [|rewrite P; auto].
    destruct (str_truthy (trim (tempLabel st))); simpl; auto.
    rewrite P; auto.
  - unfold handlePointerUp.
    destruct (opt_truthy (draggingId st)) eqn:D; simpl; intros H;
      try rewrite D in H; discriminate.
Qed.

Lemma run_exclusive (actions : list Action) (e : Editor) :
  exclusive (snd e) -> exclusive (snd (run imageSrc actions e)).
Proof.
  revert e; induction actions as [|a rest IH]; intros e H; simpl; auto.
  apply IH, act_exclusive, H.
Qed.

(** X16: placing and dragging exclude each other. Whatever handlers are
    called in whatever order, from the idle editor, a pending position
    is never set while a drag is active: starting a drag discards it,
    and a click on the surface during a drag places nothing. *)
Theorem drag_excludes_pending (actions : list Action)
        (annotations : list Annotation.t) :
  let st := snd (run imageSrc actions (annotations, idle)) in
  opt_truthy (draggingId st) = true -> pendingClick st = None.
Proof.
  cbv zeta. apply (run_exclusive actions (annotations, idle)).
  unfold exclusive; simpl. discriminate.
Qed.

Lemma NoDup_ids_filter (f : Annotation.t -> bool) (l : list Annotation.t) :
  NoDup (ids l) -> NoDup (ids (filter f l)).
Proof.
  unfold ids; induction l as [|a l IH]; simpl; auto.
  intros N; inversion N as [|x xs Hx Nl]; subst.
  destruct (f a); simpl; auto. constructor; auto.
  intros H. apply Hx. apply in_map_iff in H as (b & E & Hb).
  apply filter_In in Hb as [Hb _]. apply in_map_iff; eauto.
Qed.

Lemma ids_filter_incl (f : Annotation.t -> bool) (l : list Annotation.t) (x : jsstring) :
  In x (ids (filter f l)) -> In x (ids l).
Proof.
  unfold ids. rewrite !in_map_iff. intros (b & E & Hb).
  apply filter_In in Hb as [Hb _]. eauto.
Qed.

(** One action: the ids stay distinct, and no id of a later commit
    appears. *)
Lemma act_ids (a : Action) (rest : list Action) (e : Editor) :
  NoDup (ids (fst e)) ->
  NoDup (commit_times (a :: rest)) ->
  (forall t, In t (commit_times (a :: rest)) -> ~ In (int_toString t) (ids (fst e))) ->
  NoDup (ids (fst (act imageSrc a e))) /\
  NoDup (commit_times rest) /\
  (forall t, In t (commit_times rest) ->
             ~ In (int_toString t) (ids (fst (act imageSrc a e)))).
Proof.
  destruct e as [anns st]; cbn [fst]. intros N T F.
  destruct a as [c cx cy|s|now| |id|c cx cy| |id| ]; cbn [commit_times] in *;
    try (cbn [act fst]; auto; fail).
  - (* Commit *)
    inversion T as [|x xs Hx Tr]; subst.
    cbn [act]. unfold addAnnotation.
    destruct (pendingClick st) as [[px py]|]; cbn [fst];
      [|split; [auto|split; [auto|intros t Ht; apply F; right; exact Ht]]].
    destruct (str_truthy (trim (tempLabel st))); cbn [fst];
      [|split; [auto|split; [auto|intros t Ht; apply F; right; exact Ht]]].
    unfold ids. rewrite map_app; simpl. split; [|split; [exact Tr|]].
    + apply NoDup_app; [exact N | repeat constructor; simpl; tauto |].
      intros x Hx' [<-|[]]. exact (F now (or_introl eq_refl) Hx').
    + intros t Ht H. apply in_app_or in H as [H|[H|[]]].
      * exact (F t (or_intror Ht) H).
      * apply int_toString_inj in H. subst t. contradiction.
  - (* PointerMove *)
    cbn [act fst]. rewrite handlePointerMove_ids. auto.
  - (* Remove *)
    cbn [act fst]. unfold removeAnnotation.
    split; [now apply NoDup_ids_filter|]. split; [exact T|].
    intros t Ht H. apply ids_filter_incl in H. exact (F t Ht H).
  - (* ClearAll *)
    cbn [act fst]. split; [constructor|]. split; [exact T|]. intros t _ [].
Qed.

Lemma NoDup_session (actions : list Action) (e : Editor) :
  NoDup (ids (fst e)) ->
  NoDup (commit_times actions) ->
  (forall t, In t (commit_times actions) -> ~ In (int_toString t) (ids (fst e))) ->
  NoDup (ids (fst (run imageSrc actions e))).
Proof.
  revert e; induction actions as [|a rest IH]; intros e N T F; simpl; auto.
  destruct (act_ids a rest e N T F) as (N' & T' & F').
  exact (IH _ N' T' F').
Qed.

(** X17: ids stay pairwise distinct through an editing session. If the
    list starts with distinct ids, the clock readings of the commits of
    the session are distinct, and none of them already is an id of the
    list (as for a list that came from a detection), then after any
    sequence of clicks, typing, commits, cancels, drags, removals and
    clearing the ids are still pairwise distinct. *)
Theorem session_keeps_ids_distinct (actions : list Action) (e : Editor) :
  NoDup (ids (fst e)) ->
  NoDup (commit_times actions) ->
  (forall t, In t (commit_times actions) -> ~ In (int_toString t) (ids (fst e))) ->
  NoDup (ids (fst (run imageSrc actions e))).
Proof.
  revert e; induction actions as [|a rest IH]; intros e N T F; simpl; auto.
  destruct (act_ids a rest e N T F) as (N' & T' & F').
  exact (IH _ N' T' F').
Qed.

(** X18: a placement, start to end. On a loaded image with no drag
    active, a click on the laid-out surface, a typed label that is not
    blank and a commit append exactly one annotation: at the percentages
    of the click as computed, not clamped, with the trimmed label and the
    clock reading as id; the editor is idle again, with the label field
    empty. *)
Theorem place_label_commit (rect : Rect) (clientX clientY : number)
        (label : jsstring) (now : Z)
        (annotations : list Annotation.t) (st : State) :
  opt_truthy imageSrc = true ->
  opt_truthy (draggingId st) = false ->
  forallb is_space label = false ->
  run imageSrc [Click (Some rect) clientX clientY; TypeLabel label; Commit now]
      (annotations, st)
  = (annotations ++
       [Annotation.mk (int_toString now)
                      (VNum (percent clientX (left rect) (width rect)))
                      (VNum (percent clientY (top rect) (height rect)))
                      (VStr (trim label))],
     mkState [] None (draggingId st)).
Proof.
  intros Hi Hd Hl. apply trim_ink in Hl.
  unfold run; simpl. unfold handleImageClick. rewrite Hd, Hi; simpl.
  unfold addAnnotation; simpl. now rewrite Hl.
Qed.

(** X19: starting a drag discards the pending position but not the text
    typed for it. With a label typed that is not blank, a drag that starts
    and ends, and then a click and a commit with nothing typed anew, the
    new annotation carries the old label. *)
Theorem drag_keeps_typed_label (rect : Rect) (clientX clientY : number)
        (id : jsstring) (now : Z)
        (annotations : list Annotation.t) (st : State) :
  opt_truthy imageSrc = true ->
  str_truthy id = true ->
  forallb is_space (tempLabel st) = false ->
  run imageSrc [StartDrag id; PointerUp; Click (Some rect) clientX clientY;
                Commit now] (annotations, st)
  = (annotations ++
       [Annotation.mk (int_toString now)
                      (VNum (percent clientX (left rect) (width rect)))
                      (VNum (percent clientY (top rect) (height rect)))
                      (VStr (trim (tempLabel st)))],
     mkState [] None None).
Proof.
  intros Hi Hid Hl. apply trim_ink in Hl.
  unfold run; simpl. unfold handlePointerUp; simpl. rewrite Hid; simpl.
  unfold handleImageClick; simpl. rewrite Hi; simpl.
  unfold addAnnotation; simpl. now rewrite Hl.
Qed.

End Sessions.

Section SessionsWitness.
Import CanvasEditor CanvasSession SessionSpec.

Lemma drag_excludes_pending_witness :
  pendingClick (snd (run (Some Sample.image_I) SampleSession.placing_then_drag
                         ([Sample.face], idle))) = None.
Proof.
  apply (drag_excludes_pending (Some Sample.image_I)
           SampleSession.placing_then_drag [Sample.face]).
  reflexivity.
Defined.

Lemma session_keeps_ids_distinct_witness :
  NoDup (ids (fst (run (Some Sample.image_I) SampleSession.placing_then_drag
                       ([Sample.face], idle)))).
Proof.
  apply (session_keeps_ids_distinct (Some Sample.image_I)
           SampleSession.placing_then_drag ([Sample.face], idle)).
  - repeat constructor. simpl; tauto.
  - repeat constructor. simpl; tauto.
  - simpl. intros t [<-|[]] [H|[]]. discriminate.
Defined.

Lemma place_label_commit_witness :
  fst (run (Some Sample.image_I)
           [Click (Some SampleCanvas.rect) Sample.n150 Sample.n50;
            TypeLabel (lit " Torso "); Commit 1700000000001]
           ([Sample.face], idle))
  = [Sample.face;
     Annotation.mk (lit "1700000000001")
                   (VNum (percent Sample.n150 num_100 Sample.n200))
                   (VNum (percent Sample.n50 Sample.n0 Sample.n200))
                   (VStr (lit "Torso"))].
Proof.
  rewrite (place_label_commit (Some Sample.image_I) SampleCanvas.rect
             Sample.n150 Sample.n50 (lit " Torso ") 1700000000001
             [Sample.face] idle eq_refl eq_refl eq_refl).
  reflexivity.
Defined.

Lemma drag_keeps_typed_label_witness :
  fst (run (Some Sample.image_I)
           [StartDrag (Annotation.id Sample.face); PointerUp;
            Click (Some SampleCanvas.rect) Sample.n150 Sample.n50;
            Commit 1700000000001]
           ([Sample.face], SampleCanvas.placing))
  = [Sample.face;
     Annotation.mk (lit "1700000000001")
                   (VNum (percent Sample.n150 num_100 Sample.n200))
                   (VNum (percent Sample.n50 Sample.n0 Sample.n200))
                   (VStr (lit "Face"))].
Proof.
  rewrite (drag_keeps_typed_label (Some Sample.image_I) SampleCanvas.rect
             Sample.n150 Sample.n50 (Annotation.id Sample.face) 1700000000001
             [Sample.face] SampleCanvas.placing eq_refl eq_refl eq_refl).
  reflexivity.
Defined.

End SessionsWitness.

Section ClampMore.
Import CanvasEditor CanvasSpec.

(** X20: the clamp as a function of any number, NaN included: the result
    is the argument itself, exactly 0 or exactly 100; it is NaN only for
    NaN; and clamping twice is clamping once. *)
Theorem clamp_fixed (v : number) :
  (clamp v = v \/ clamp v = num_0 \/ clamp v = num_100) /\
  is_nan (clamp v) = is_nan v /\
  clamp (clamp v) = clamp v.
Proof.
  destruct v as [s|s| |s m e].
  - destruct s; repeat split; auto.
  - destruct s; repeat split; auto.
  - repeat split; auto.
  - assert (K : clamp (S754_finite s m e) =
                if SFltb (S754_finite s m e) num_100
                then (if s then num_0 else S754_finite s m e)
                else num_100).
    { unfold clamp.
      change (Math_min num_100 (S754_finite s m e))
        with (if SFltb (S754_finite s m e) num_100
              then S754_finite s m e else num_100).
      destruct (SFltb (S754_finite s m e) num_100); destruct s; reflexivity. }
    destruct (SFltb (S754_finite s m e) num_100) eqn:E; destruct s;
      rewrite !K; try rewrite E; repeat split; auto.
Qed.

Lemma num_sub_self (a : number) : is_finite a = true -> num_sub a a = num_0.
Proof.
  destruct a as [s|s| |s m e]; simpl; try discriminate; intros _.
  - destruct s; reflexivity.
  - now rewrite Z.sub_diag.
Qed.

(** X21: a pointer exactly on the left or top edge of a laid-out
    container is at 0 on that axis: the percentage is [+0], and so is
    the clamped value. *)
Theorem percent_at_origin (origin extent : number) :
  is_finite origin = true -> positive_finite extent = true ->
  percent origin origin extent = num_0 /\
  clamp (percent origin origin extent) = num_0.
Proof.
  intros Ho He. unfold percent. rewrite (num_sub_self origin Ho).
  destruct extent as [sw|sw| |[|] mw ew]; try discriminate.
  split; reflexivity.
Qed.

Lemma percent_at_origin_witness :
  clamp (percent num_100 num_100 Sample.n200) = num_0.
Proof.
  apply (percent_at_origin num_100 Sample.n200); reflexivity.
Defined.

End ClampMore.

(* ================================================================== *)
(** ** Calls that overlap                                              *)
(* ================================================================== *)

Section Overlaps.
Import App.
Variable JSON_parse : jsstring -> Result JsValue.


(** X23: the Enter key of the edit field has no busy gate. With a result
    on display and an instruction that is not blank, Enter starts an edit
    whether or not [isLoading] is true, while a click on the edit button
    does so only when [isLoading] is false; so while one edit is in
    flight Enter puts a second one in flight. *)
Theorem enter_key_has_no_busy_gate (st : State) (R : jsstring) :
  resultImage (genState st) = Some R ->
  str_truthy R = true ->
  forallb is_space (editPrompt st) = false ->
  dispatch EditEnterPressed st
    = (setGenState (fun prev => mkGen true (resultImage prev) None) st,
       Some (EditRequest (split_comma_1 R) (editPrompt st))) /\
  (isLoading (genState st) = true -> dispatch EditClicked st = (st, None)) /\
  (isLoading (genState st) = false ->
   dispatch EditClicked st = dispatch EditEnterPressed st).
Proof.
  intros HR Ht Hp. apply trim_ink in Hp.
  unfold dispatch, edit_section_rendered, edit_button_disabled.
  rewrite HR; simpl. rewrite Ht, Hp; simpl.
  rewrite (handleEdit_starts st R HR Ht Hp).
  repeat split; intros ->; reflexivity.
Qed.

End Overlaps.

Section OverlapsWitness.
Import App.


Lemma enter_key_has_no_busy_gate_witness :
  snd (dispatch EditEnterPressed Sample.busy)
    = Some (EditRequest (Some (lit "UkVT")) Sample.instruction) /\
  dispatch EditClicked Sample.busy = (Sample.busy, None).
Proof.
  destruct (enter_key_has_no_busy_gate Sample.busy Sample.result_R
              eq_refl eq_refl eq_refl) as (E & B & _).
  split; [now rewrite E | exact (B eq_refl)].
Defined.

End OverlapsWitness.

(* ================================================================== *)
(** ** From a detection to an editing session                          *)
(* ================================================================== *)

Section DetectThenEdit.
Import Gemini CanvasSession SessionSpec.
Variable JSON_parse : jsstring -> Result JsValue.
Variable Date_now : nat -> Z.

Lemma to_annotation_id (item : JsValue) (i : nat) (a : Annotation.t) :
  to_annotation Date_now item i = Returned a ->
  Annotation.id a = auto_id (Date_now i) i.
Proof.
  unfold to_annotation.
  destruct (field item (lit "label")); [|discriminate].
  destruct (field item (lit "x")); [|discriminate].
  destruct (field item (lit "y")); [|discriminate].
  intros E; injection E as <-. reflexivity.
Qed.

Lemma map_from_ids (items : list JsValue) (k : nat) (l : list Annotation.t) :
  map_from Date_now k items = Returned l ->
  ids l = DetectSpec.ids_from Date_now k (List.length items).
Proof.
  revert k l; induction items as [|item rest IH]; intros k l; simpl.
  - intros E; injection E as <-. reflexivity.
  - destruct (to_annotation Date_now item k) as [a|] eqn:Ea; [|discriminate].
    destruct (map_from Date_now (S k) rest) as [l'|] eqn:El; [|discriminate].
    intros E; injection E as <-.
    unfold ids, DetectSpec.ids_from in *; simpl.
    now rewrite (to_annotation_id item k a Ea), (IH (S k) l' El).
Qed.

(** Whatever [detectUVParts] returns, its ids are those of the indices. *)
Lemma detectUVParts_ids (o : Outcome) (l : list Annotation.t) :
  detectUVParts JSON_parse Date_now o = Returned l ->
  exists n, ids l = DetectSpec.ids_from Date_now 0 n.
Proof.
  unfold detectUVParts, detect_try.
  assert (Nil : forall l0 : list Annotation.t,
            Returned (@nil Annotation.t) = Returned l0 ->
            exists n, ids l0 = DetectSpec.ids_from Date_now 0 n).
  { intros l0 E; injection E as <-. exists 0. reflexivity. }
  destruct o as [m|r]; [apply Nil|].
  destruct (text r) as [t|]; [|apply Nil].
  destruct (str_truthy t); [|apply Nil].
  destruct (JSON_parse t) as [v|m]; [|apply Nil].
  destruct v as [| | | | |items|]; try apply Nil.
  destruct (map_from Date_now 0 items) as [l'|] eqn:E; [|apply Nil].
  intros H; injection H as <-. eexists. exact (map_from_ids items 0 l' E).
Qed.

(** X24: from a detection to the end of an editing session. Whatever
    list [detectUVParts] returned, after any sequence of clicks, typing,
    commits, cancels, drags, removals and clearing whose commits happen
    at pairwise distinct clock readings, the ids of the annotations are
    pairwise distinct. *)
Theorem detected_list_keeps_ids_distinct (imageSrc : option jsstring)
        (o : Outcome) (l : list Annotation.t) (actions : list Action)
        (st : CanvasEditor.State) :
  detectUVParts JSON_parse Date_now o = Returned l ->
  NoDup (commit_times actions) ->
  NoDup (ids l) /\
  NoDup (ids (fst (run imageSrc actions (l, st)))).
Proof.
  intros D T. destruct (detectUVParts_ids o l D) as (n & E).
  assert (N : NoDup (ids l)) by (rewrite E; apply ids_from_NoDup).
  split; [exact N|].
  apply NoDup_session; auto.
  intros t _ H. cbn [fst] in H. rewrite E in H.
  unfold DetectSpec.ids_from in H. apply in_map_iff in H as (i & Hi & _).
  symmetry in Hi. exact (int_toString_not_auto _ _ _ Hi).
Qed.

End DetectThenEdit.

Section DetectThenEditWitness.
Import Gemini CanvasSession SessionSpec.

Lemma detected_list_keeps_ids_distinct_witness :
  NoDup (ids (fst (run (Some Sample.image_I) SampleSession.placing_then_drag
                       ([Sample.face], idle)))).
Proof.
  apply (detected_list_keeps_ids_distinct SampleDetect.parse Sample.clock
           (Some Sample.image_I) (SampleDetect.answer SampleDetect.face_body)
           [Sample.face] SampleSession.placing_then_drag idle).
  - reflexivity.
  - repeat constructor. simpl; tauto.
Defined.

End DetectThenEditWitness.

(* ================================================================== *)
(** ** Every way the service functions throw                           *)
(* ================================================================== *)

Section CallFacts.
Import Gemini GeminiPrompt GeminiCall PromptSpec ResponseSpec CallSpec.
Variable round_text : JsValue -> jsstring.
Variable other_text : JsValue -> jsstring.
Variable toLowerCase : jsstring -> jsstring.
Variable type_error_message : JsValue -> jsstring.
Variable read_error_message : JsValue -> jsstring.







End CallFacts.

Section CallWitness.
Import GeminiCall.


End CallWitness.

(* ================================================================== *)
(** ** The page over time                                              *)
(* ================================================================== *)

Section TimelineRequests.
Import App Timeline.

Lemma handleGenerate_request (st : State) (r : Request) :
  snd (handleGenerate st) = Some r ->
  exists uv,
    r = GenerateRequest (split_comma_1 uv) (stylePrompt st) (annotations st) /\
    uvImage st = Some uv /\ str_truthy uv = true /\
    forallb is_space (stylePrompt st) = false.
Proof.
  unfold handleGenerate.
  destruct (uvImage st) as [uv|]; [|discriminate].
  destruct (str_truthy uv) eqn:Eu; simpl; [|discriminate].
  destruct (str_truthy (trim (stylePrompt st))) eqn:Es; simpl; [|discriminate].
  intros E; injection E as <-. exists uv.
  auto using blank_false_of_trim.
Qed.

Lemma handleEdit_request (st : State) (r : Request) :
  snd (handleEdit st) = Some r ->
  exists R,
    r = EditRequest (split_comma_1 R) (editPrompt st) /\
    resultImage (genState st) = Some R /\ str_truthy R = true /\
    forallb is_space (editPrompt st) = false.
Proof.
  unfold handleEdit.
  destruct (resultImage (genState st)) as [R|]; [|discriminate].
  destruct (str_truthy R) eqn:ER; simpl; [|discriminate].
  destruct (str_truthy (trim (editPrompt st))) eqn:Es; simpl; [|discriminate].
  intros H; injection H as <-. exists R.
  auto using blank_false_of_trim.
Qed.

(** X10: what the page starts, and under which conditions. A control of
    the page never starts a detection: choosing a file while no
    detection is flagged only starts the read of that file and sets no
    state. A generate call comes from the generate button while nothing
    loads and no detection is flagged, with a loaded image, the current
    annotations and a style text that is not blank. An edit call comes
    from the edit button or the Enter key, with the result on display
    and an instruction that is not blank. The detection is started by
    [reader.onload], in every state, with the text after the first comma
    of the data URL that was read. *)
Theorem request_preconditions (ev : Event) (st : State) (r : Running) :
  snd (Timeline.dispatch ev st) = Some r ->
  match r with
  | Reading base64 =>
      ev = FileChosen (Some base64) /\ isDetecting st = false /\
      fst (Timeline.dispatch ev st) = st
  | Calling (DetectRequest _) => False
  | Calling (GenerateRequest d s a) =>
      ev = GenerateClicked /\
      (exists uv, uvImage st = Some uv /\ str_truthy uv = true /\
                  d = split_comma_1 uv) /\
      s = stylePrompt st /\ forallb is_space s = false /\
      a = annotations st /\
      isLoading (genState st) = false /\ isDetecting st = false
  | Calling (EditRequest d i) =>
      (ev = EditClicked \/ ev = EditEnterPressed) /\
      (exists R, resultImage (genState st) = Some R /\ str_truthy R = true /\
                 d = split_comma_1 R) /\
      i = editPrompt st /\ forallb is_space i = false
  end /\
  forall base64 st',
    snd (handleFileUpload_onload base64 st')
      = Some (DetectRequest (split_comma_1 base64)).
Proof.
  intros H. split; [|reflexivity].
  destruct ev as [[b|]| | | |s|s]; unfold Timeline.dispatch in *;
    cbn [App.dispatch fst snd option_map] in H |- *.
  - unfold file_input_disabled in *.
    destruct (isDetecting st) eqn:D; [discriminate|].
    simpl in H. injection H as <-. auto.
  - destruct (file_input_disabled st); discriminate.
  - destruct (generate_button_disabled st) eqn:B; [discriminate|].
    unfold generate_button_disabled in B.
    apply orb_false_iff in B as [B D]. apply orb_false_iff in B as [_ L].
    destruct (snd (handleGenerate st)) as [req|] eqn:Q; [|discriminate].
    injection H as <-.
    destruct (handleGenerate_request st req Q) as (uv & -> & Eu & Tu & Hs).
    eauto 10.
  - destruct (negb (edit_section_rendered st) || edit_button_disabled st);
      [discriminate|].
    destruct (snd (handleEdit st)) as [req|] eqn:Q; [|discriminate].
    injection H as <-.
    destruct (handleEdit_request st req Q) as (R & -> & ER & TR & Hs).
    eauto 10.
  - destruct (negb (edit_section_rendered st)); [discriminate|].
    destruct (snd (handleEdit st)) as [req|] eqn:Q; [|discriminate].
    injection H as <-.
    destruct (handleEdit_request st req Q) as (R & -> & ER & TR & Hs).
    eauto 10.
  - discriminate.
  - discriminate.
Qed.

Lemma request_preconditions_witness :
  isLoading (genState Sample.with_result) = false /\
  forallb is_space Sample.style = false.
Proof.
  destruct (request_preconditions GenerateClicked Sample.with_result
              (Calling (GenerateRequest (Some (lit "SU1H")) Sample.style
                                        [Sample.face]))
              eq_refl) as ((_ & _ & _ & Hs & _ & Hl & _) & _).
  exact (conj Hl Hs).
Defined.

End TimelineRequests.

Section TimelineSteps.
Import App Timeline TimelineSpec CoordinatorSpec.
Variable JSON_parse : jsstring -> Result JsValue.
Variable round_text : JsValue -> jsstring.
Variable other_text : JsValue -> jsstring.
Variable toLowerCase : jsstring -> jsstring.
Variable type_error_message : JsValue -> jsstring.
Variable read_error_message : JsValue -> jsstring.

Lemma in_remove_other (A : Type) (x y : A) (before after : list A) :
  x <> y -> In x (before ++ y :: after) -> In x (before ++ after).
Proof.
  intros N H. apply in_app_or in H as [H|[H|H]]; apply in_or_app; auto.
  congruence.
Qed.

Lemma in_start (x : Running) (r : option Running) (l : list Running) :
  In x l -> In x (start r l).
Proof. destruct r; simpl; auto. intros H; apply in_or_app; auto. Qed.

Lemma timeline_detections_app (l l' : list Running) :
  detections (l ++ l') = detections l + detections l'.
Proof.
  induction l as [|[b|[d|d s a|d i]] l IH]; simpl; auto.
Qed.

(** A control of the page starts a file read, a generate call or an
    edit call, never a detection. *)
Lemma dispatch_starts_no_detection (ev : Event) (st : State) (d : option jsstring) :
  snd (Timeline.dispatch ev st) <> Some (Calling (DetectRequest d)).
Proof.
  destruct ev as [[b|]| | | |s|s]; unfold Timeline.dispatch;
    cbn [App.dispatch fst snd option_map]; try discriminate.
  - destruct (file_input_disabled st); discriminate.
  - destruct (file_input_disabled st); discriminate.
  - destruct (generate_button_disabled st); [discriminate|].
    destruct (handleGenerate_cases st) as [-> | [-> | (x & ->)]]; discriminate.
  - destruct (negb (edit_section_rendered st) || edit_button_disabled st);
      [discriminate|].
    destruct (handleEdit_cases st) as [-> | (x & ->)]; discriminate.
  - destruct (negb (edit_section_rendered st)); [discriminate|].
    destruct (handleEdit_cases st) as [-> | (x & ->)]; discriminate.
Qed.

(** The state after an event is the one [App.dispatch] gives, except for
    a chosen file, which changes nothing yet. *)
Lemma timeline_dispatch_state (ev : Event) (st : State) :
  (fst (Timeline.dispatch ev st) = st /\
   forall req, snd (Timeline.dispatch ev st) <> Some (Calling req)) \/
  (fst (Timeline.dispatch ev st) = fst (App.dispatch ev st) /\
   snd (Timeline.dispatch ev st) = option_map Calling (snd (App.dispatch ev st)) /\
   isDetecting (fst (App.dispatch ev st)) = isDetecting st).
Proof.
  destruct ev as [[b|]| | | |s|s]; unfold Timeline.dispatch;
    cbn [App.dispatch fst snd option_map].
  - left. destruct (file_input_disabled st); split; auto; discriminate.
  - left. destruct (file_input_disabled st); split; auto; discriminate.
  - right. repeat split.
    destruct (generate_button_disabled st); [reflexivity|].
    destruct (handleGenerate_cases st) as [-> | [-> | (x & ->)]]; reflexivity.
  - right. repeat split.
    destruct (negb (edit_section_rendered st) || edit_button_disabled st);
      [reflexivity|].
    destruct (handleEdit_cases st) as [-> | (x & ->)]; reflexivity.
  - right. repeat split.
    destruct (negb (edit_section_rendered st)); [reflexivity|].
    destruct (handleEdit_cases st) as [-> | (x & ->)]; reflexivity.
  - right. repeat split.
  - right. repeat split.
Qed.

Lemma timeline_dispatch_isDetecting (ev : Event) (st : State) :
  isDetecting (fst (Timeline.dispatch ev st)) = isDetecting st.
Proof.
  destruct (timeline_dispatch_state ev st) as [[-> _]|(-> & _ & E)]; auto.
Qed.

Lemma handleGenerate_settled_isDetecting (r : Result jsstring) (st : State) :
  isDetecting (handleGenerate_settled r st) = isDetecting st.
Proof. destruct r; reflexivity. Qed.

Lemma handleEdit_settled_isDetecting (r : Result jsstring) (st : State) :
  isDetecting (handleEdit_settled r st) = isDetecting st.
Proof. destruct r; reflexivity. Qed.

Lemma handleFileUpload_settled_isDetecting (r : Result (list Annotation.t))
      (st : State) :
  isDetecting (handleFileUpload_settled r st) = false.
Proof. destruct r as [[|a l]|m]; reflexivity. Qed.

(** While [isDetecting] is true a detection is in flight. *)
Lemma detecting_has_detection (w : World) :
  Timeline.reachable JSON_parse round_text other_text toLowerCase
      type_error_message read_error_message w -> isDetecting (app w) = true -> detect_call (running w).
Proof.
  induction 1 as [|w w' _ IH S]; [discriminate|].
  destruct S as [ev w|l w|base64 w before after E|base64 w before after E
                |clock o w before after d E|c w before after d s a E
                |c w before after d i E]; cbn [app running].
  - rewrite timeline_dispatch_isDetecting. intros D.
    destruct (IH D) as (d & Hin). exists d. now apply in_start.
  - exact IH.
  - intros _. exists (split_comma_1 base64). simpl.
    apply in_or_app; right; left; reflexivity.
  - intros D. destruct (IH D) as (d & Hin). exists d.
    rewrite E in Hin. eapply in_remove_other; [|exact Hin]. discriminate.
  - rewrite handleFileUpload_settled_isDetecting. discriminate.
  - rewrite handleGenerate_settled_isDetecting. intros D.
    destruct (IH D) as (x & Hin). exists x.
    rewrite E in Hin. eapply in_remove_other; [|exact Hin]. discriminate.
  - rewrite handleEdit_settled_isDetecting. intros D.
    destruct (IH D) as (x & Hin). exists x.
    rewrite E in Hin. eapply in_remove_other; [|exact Hin]. discriminate.
Qed.

(** X12: the flag [isDetecting] and the detections in flight. In every
    state the page can reach, a detection is in flight while
    [isDetecting] is true. A step puts one more detection in flight only
    as the end of a file read, and sets the flag. The flag does not
    bound the detections: while it is false, two files chosen one after
    the other are both read, and when both reads have ended two
    detections are in flight and the second file is the image on
    display; when the detection of the first file settles, what it found
    becomes the annotation list of the second image and the flag is
    false again, so the file input is enabled while the second
    detection is still in flight. *)
Theorem detecting_flag_and_detections (w : World) :
  Timeline.reachable JSON_parse round_text other_text toLowerCase
                     type_error_message read_error_message w ->
  (isDetecting (app w) = true -> detect_call (running w)) /\
  (forall w',
      Timeline.step JSON_parse round_text other_text toLowerCase
                    type_error_message read_error_message w w' ->
      detections (running w) < detections (running w') ->
      isDetecting (app w') = true /\
      exists base64 before after, running w = before ++ Reading base64 :: after) /\
  (isDetecting (app w) = false ->
   forall (b1 b2 : jsstring) (Date_now : nat -> Z) (o : Gemini.Outcome),
   exists w2 w3,
     Timeline.reachable JSON_parse round_text other_text toLowerCase
                        type_error_message read_error_message w2 /\
     Timeline.step JSON_parse round_text other_text toLowerCase
                   type_error_message read_error_message w2 w3 /\
     running w2 = running w ++ [Calling (DetectRequest (split_comma_1 b1));
                                Calling (DetectRequest (split_comma_1 b2))] /\
     isDetecting (app w2) = true /\
     uvImage (app w2) = Some b2 /\
     running w3 = running w ++ [Calling (DetectRequest (split_comma_1 b2))] /\
     app w3 = handleFileUpload_settled
                (Gemini.detectUVParts JSON_parse Date_now o) (app w2) /\
     uvImage (app w3) = Some b2 /\
     isDetecting (app w3) = false /\
     file_input_disabled (app w3) = false).
Proof.
  intros R. split; [now apply detecting_has_detection|]. split.
  - intros w' S.
    destruct S as [ev w|l w|base64 w before after E|base64 w before after E
                  |clock o w before after d E|c w before after d s a E
                  |c w before after d i E]; cbn [app running]; intros L.
    + exfalso. pose proof (dispatch_starts_no_detection ev (app w)) as N.
      destruct (snd (Timeline.dispatch ev (app w))) as [[b|[d|d s a|d i]]|];
        simpl in L; try rewrite timeline_detections_app in L; simpl in L;
        try lia.
      exact (N d eq_refl).
    + lia.
    + split; [reflexivity|]. eauto.
    + rewrite E, !timeline_detections_app in L. simpl in L. lia.
    + rewrite E, !timeline_detections_app in L. simpl in L. lia.
    + rewrite E, !timeline_detections_app in L. simpl in L. lia.
    + rewrite E, !timeline_detections_app in L. simpl in L. lia.
  - intros D b1 b2 clock o.
    (* the two files are chosen *)
    pose proof (reachable_step _ _ _ _ _ _ _ _ R
                  (step_event _ _ _ _ _ _ (FileChosen (Some b1)) w)) as R1.
    cbn [Timeline.dispatch] in R1. unfold file_input_disabled in R1.
    rewrite D in R1. cbn [Timeline.handleFileUpload fst snd start] in R1.
    pose proof (reachable_step _ _ _ _ _ _ _ _ R1
                  (step_event _ _ _ _ _ _ (FileChosen (Some b2)) _)) as R2.
    cbn [Timeline.dispatch app running] in R2. unfold file_input_disabled in R2.
    rewrite D in R2. cbn [Timeline.handleFileUpload fst snd start] in R2.
    (* the two reads end *)
    pose proof (fun E => reachable_step _ _ _ _ _ _ _ _ R2
                  (step_loaded _ _ _ _ _ _ b1 _ (running w) [Reading b2] E)) as R3.
    cbn [app running] in R3. rewrite <- app_assoc in R3.
    specialize (R3 eq_refl). cbn [handleFileUpload_onload fst snd option_map start] in R3.
    pose proof (fun E => reachable_step _ _ _ _ _ _ _ _ R3
                  (step_loaded _ _ _ _ _ _ b2 _ (running w)
                     [Calling (DetectRequest (split_comma_1 b1))] E)) as R4.
    cbn [app running] in R4. rewrite <- app_assoc in R4.
    specialize (R4 eq_refl). cbn [handleFileUpload_onload fst snd option_map start] in R4.
    rewrite <- !app_assoc in R4. cbn [app] in R4.
    eexists. eexists. split; [exact R4|].
    split.
    + apply (step_detect_settles _ _ _ _ _ _ clock o _ (running w)
               [Calling (DetectRequest (split_comma_1 b2))] (split_comma_1 b1)).
      reflexivity.
    + cbn [app running]. unfold file_input_disabled.
      rewrite handleFileUpload_settled_isDetecting. repeat split.
      destruct (Gemini.detectUVParts JSON_parse clock o) as [[|x l]|m];
        reflexivity.
Qed.

End TimelineSteps.

Section TimelineInvariants.
Import App Timeline TimelineSpec CoordinatorSpec.
Variable JSON_parse : jsstring -> Result JsValue.
Variable round_text : JsValue -> jsstring.
Variable other_text : JsValue -> jsstring.
Variable toLowerCase : jsstring -> jsstring.
Variable type_error_message : JsValue -> jsstring.
Variable read_error_message : JsValue -> jsstring.







End TimelineInvariants.

Section TimelineWitness.
Import App Timeline TimelineSpec.

Lemma detecting_flag_and_detections_witness :
  exists w2 w3,
    Timeline.step SampleDetect.parse SampleExtra.round_text SampleExtra.other_text
                  SampleExtra.lower SampleExtra.type_error_message
                  SampleExtra.read_error_message w2 w3 /\
    running w2 = [Calling (DetectRequest (Some (lit "SU1H")));
                  Calling (DetectRequest (Some (lit "Sk1H")))] /\
    isDetecting (app w2) = true /\
    running w3 = [Calling (DetectRequest (Some (lit "Sk1H")))] /\
    isDetecting (app w3) = false.
Proof.
  destruct (detecting_flag_and_detections
              SampleDetect.parse SampleExtra.round_text SampleExtra.other_text
              SampleExtra.lower SampleExtra.type_error_message
              SampleExtra.read_error_message Timeline.initial
              (reachable_initial _ _ _ _ _ _)) as (_ & _ & O).
  destruct (O eq_refl Sample.image_I Sample.image_J Sample.clock
              (Gemini.Rejects Sample.quota_exceeded))
    as (w2 & w3 & _ & S & E2 & D2 & _ & E3 & _ & _ & D3 & _).
  exists w2, w3. auto.
Defined.


End TimelineWitness.
